(* ===== verification/_CoqProject ===== *)
-Q . S2P
Prelude.v
PyStr.v
Filter.v
Fragments.v
Ranker.v
Assembler.v
Extract.v
Json.v
JsonParse.v
Batch.v
Run.v
