(* ===== verification/Prelude.v ===== *)
(** * A verification development of the PDF heading extractor (src/main.py)

    The program ([src/main.py], 91 lines) reads every PDF of an input
    directory and writes, for each one, a JSON file with a title and an
    outline of headings (levels H1, H2, H3).  Its parts, leaf first:

    - the Python string operations it relies on ([str.strip],
      [str.endswith], the [in] operator on strings, [str.replace],
      [os.path.basename], [os.path.join]);
    - the fragment filter [is_heading] (main.py 10-12);
    - the fragment source: the page / block / line / span walk of
      [extract_headings] (main.py 16-44), which strips every span's text,
      keeps the heading-shaped ones and tags each with its language
      (the [langdetect.detect] call, whose exceptions are swallowed);
    - the font-level ranker (main.py 46-48): distinct font sizes, sorted
      in descending order, the three largest mapped to "H1", "H2", "H3";
    - the outline assembler (main.py 50-64): one pass over the fragments
      that skips sizes outside the map and (text, page) pairs already
      seen, and the title selection (main.py 66);
    - the whole-document wrapper [extract_headings] with its
      [try]/[except] (main.py 14-77): any failure gives the record
      {title: "Error", outline: []};
    - the batch driver [process_all_pdfs] (main.py 79-88), which writes
      each result with [json.dump] and logs one line per document;
    - the logging configuration (main.py 8) and the [__main__] block
      (main.py 90-92).

    ** Files ([_CoqProject] order) and what they model

    - [Prelude.v] (this file): the [outline_scope] notations, the
      [outline] hint database, the development's tactics, shared lemmas on
      lists and strings, and the interface [FontSizeOrder] that states
      what the program needs of a font size (Python compares [float]
      sizes with [<] and [==]): a decidable strict total order, with an
      instance on [Z] used by the witnesses.
    - [PyStr.v], Module [PyStr]: [str.isspace] on ASCII, [strip],
      [endswith], [in], [replace], [posixpath.basename] and
      [posixpath.join], as structural Fixpoints on [string].
    - [Filter.v], Module [Filter]: [is_heading] (main.py 10-12).
    - [Fragments.v], Module [Fragments]: the document as records of
      pages, blocks, lines and spans; [fitz.open] and [langdetect.detect]
      as the classes [PdfReader] and [LangDetector] (external libraries,
      given by what they return: a document or [None] for an exception);
      the span walk [text_blocks] (main.py 16-44) in the option monad, a
      page whose [get_text] raises giving [None].
    - [Ranker.v], Module [Ranker]: [font_sizes] (a duplicate-free
      listing sorted by [merge_sort] under the reverse order) and
      [size_to_level] (main.py 46-48) as a [gmap] built by
      [enumerate_into].
    - [Assembler.v], Module [Assembler]: [assemble_step], one iteration of
      the outline loop (main.py 52-64) on the state (outline, seen) with
      [seen] a [gset]; [build_outline] folds it from the empty state;
      [select_title] and [fallback_title] (main.py 66).
    - [Extract.v], Module [Extract]: [extract_headings] (main.py 14-77),
      the [except] branch as the value [error_result].
    - [Json.v], Module [Json]: the values the program dumps and CPython's
      printer for [json.dump(..., indent=2, ensure_ascii=False)]
      (main.py 87), with a reader of escaped strings.
    - [JsonParse.v], Module [JsonParse]: a JSON reader (the reference
      side of the output format, not code of the program), a nested
      induction principle for [json], and the round trip of [dump].
    - [Batch.v], Module [Batch]: [process_all_pdfs] (main.py 79-88) on a
      file store (directories as a [gset], files as a [gmap] from path
      to contents), when no exception escapes; each iteration is
      [process_file]; the spec's output schema.
    - [Run.v], Module [Run]: the same driver in a state and exception
      monad [M] over a [world] (file store, directory listings, log
      lines): [os.makedirs], [os.listdir] and [open] with the exceptions
      they raise, [extract_headings] with its [logging.error], the
      [logging] format of main.py 8, and [main] (main.py 90-92).

    Components interact through Rocq's composition: [Extract] calls the
    walk, the ranker and the assembler as the code calls them, [Batch]
    calls [extract_headings] and [Json.dump], and [Run] refines to [Batch]
    when the run completes.  Theorems about sizes and
    readers are proved in Sections over any [FontSizeOrder], [PdfReader]
    and [LangDetector], and applied to concrete ones in the witnesses.

    ** Theorems

    - Filter: what [is_heading] rejects; that it accepts every short
      whitespace-only text, so the caller's strip is what removes blank
      spans.
    - Fragments: every fragment is stripped, heading-shaped and on a page
      of the document; pages come in order; the walk fails exactly when a
      page fails; language detection only changes the [lang] field.
    - Ranker: refinement of [size_to_level] by the abstract rank
      specification; levels are H1..H3, injective and monotone; the
      largest size is H1; neither the set's iteration order nor the
      order of the fragments matters.
    - Assembler: refinement of the stateful loop by the stateless
      first-occurrence reference (the loop invariant is
      [seen = keys of outline]); no duplicate keys; completeness; order;
      the exact condition under which a level (H1 included) is absent;
      the fallback title removes every ".pdf" of the name.
    - Extract: entries of a result, the empty case, the error record and
      exactly when it is returned (a heading-less [Error.pdf] included),
      page order, independence from language detection, idempotence on
      a doubled fragment sequence, and bounds of every entry written
      (level H1..H3, text of 1 to 99 characters, page at least 1).
      Concrete runs (the spec's scenario, an outline without H1, a fourth
      size left out) are kept as examples.
    - Json, JsonParse: the escaping round trip [unescape (escape s) =
      Some s] and the round trip [parse (dump j) = Some j] of the whole
      printer, for readers that refuse raw control characters; no line
      of the text ends with a space.
    - Batch: the contents of every path after a run (the last writer
      wins), isolation when output names are distinct, non-PDF entries
      ignored, the output-name collision of [str.replace] for every stem,
      and the schema of every file.
    - Run: refinement of [Batch] with the log lines of each document,
      every document answered (an output file and a [Processed] line),
      the exact condition under which the run completes (otherwise an
      exception stops the batch), and safety of the other paths and of
      the log whatever the outcome.

    ** Bounds and fuel

    All definitions are structural but the two readers.  [unescape]
    reads with fuel the length of its input: each step consumes at
    least one character, and [unescape_fuel_escape] shows that this fuel
    is enough for any escaped string.  [JsonParse.parse] runs with one
    more unit than the length of its input; [json_size_length] shows
    that a value's text is at least as long as the nesting measure the
    reader consumes.  Font sizes are abstract ([FontSizeOrder]); page
    numbers and lengths are [nat], which Python's unbounded [int] matches.

    ** Not modelled

    The import lines (main.py 1-6) have no behaviour.  The internals of
    PyMuPDF and langdetect are interfaces ([PdfReader], [LangDetector])
    given by what they return; the text [str(e)] of a caught exception
    and [datetime.now().isoformat()] are parameters.  The order of
    [os.listdir] is the world's [w_listing].  Directories are a flat set:
    the parents [os.makedirs] creates, and errors such as permissions or
    a full disk, are not modelled; the file [open] creates is in the
    output directory, which the run has just made.  Strings are byte
    strings: non-ASCII whitespace in [str.strip] and the locale encoding
    [open] uses for non-ASCII text are not modelled. *)

From stdpp Require Import base list sorting strings gmap.
From Stdlib Require Import ZArith.

Declare Scope outline_scope.
Delimit Scope outline_scope with outline.
Open Scope outline_scope.

Create HintDb outline discriminated.
Create Rewrite HintDb outline_rw.

(** ** Font sizes

    PyMuPDF reports a span's size as a Python [float].  The program only
    hashes sizes (as [set] elements and [dict] keys) and compares them
    with [<] (inside [sorted]).  On the sizes a PDF can carry (finite, not
    NaN) [<] is a strict total order: this is all the development
    assumes of a size. *)
Class FontSizeOrder (K : Type) `{EqDecision K} := {
  size_lt : K -> K -> bool;
  size_lt_irrefl x : size_lt x x = false;
  size_lt_trans x y z :
    size_lt x y = true -> size_lt y z = true -> size_lt x z = true;
  size_lt_total x y : x <> y -> size_lt x y = true \/ size_lt y x = true
}.

Notation "x ⊲ y" := (size_lt x y = true) (at level 70) : outline_scope.

(** [sorted(..., reverse=True)] keeps [x] before [y] unless [x < y]. *)
Definition size_ge {K} `{FontSizeOrder K} (x y : K) : Prop := size_lt x y = false.

#[export] Instance size_ge_dec {K} `{FontSizeOrder K} : RelDecision (@size_ge K _ _).
Proof. intros x y. unfold size_ge. apply _. Defined.

(** The font sizes of the witnesses: integers (say, in tenths of a point). *)
#[export] Program Instance Z_font_size_order : FontSizeOrder Z := {|
  size_lt := Z.ltb |}.
Next Obligation. intros x. apply Z.ltb_irrefl. Qed.
Next Obligation. intros x y z. rewrite !Z.ltb_lt. lia. Qed.
Next Obligation. intros x y Hne. rewrite !Z.ltb_lt. lia. Qed.

Section size_order.
Context {K : Type} `{FontSizeOrder K}.

Lemma size_lt_asym x y : x ⊲ y -> size_lt y x = false.
Proof.
  intros Hxy. destruct (size_lt y x) eqn:Hyx; [|done].
  pose proof (size_lt_trans _ _ _ Hxy Hyx) as Hxx.
  by rewrite size_lt_irrefl in Hxx.
Qed.

Lemma size_lt_ne x y : x ⊲ y -> x <> y.
Proof. intros Hxy ->. by rewrite size_lt_irrefl in Hxy. Qed.

Lemma size_ge_lt x y : size_ge x y -> x <> y -> y ⊲ x.
Proof.
  unfold size_ge. intros Hge Hne.
  destruct (size_lt_total x y Hne); congruence.
Qed.

#[export] Instance size_ge_total : Total (@size_ge K _ _).
Proof.
  intros x y. unfold size_ge.
  destruct (size_lt x y) eqn:Hxy; [right; by apply size_lt_asym|by left].
Qed.

#[export] Instance size_ge_antisymm : AntiSymm (=) (@size_ge K _ _).
Proof.
  intros x y Hxy Hyx. destruct (decide (x = y)) as [|Hne]; [done|].
  unfold size_ge in *. destruct (size_lt_total x y Hne); congruence.
Qed.

#[export] Instance size_ge_trans : Transitive (@size_ge K _ _).
Proof.
  intros x y z Hxy Hyz. unfold size_ge in *.
  destruct (size_lt x z) eqn:Hxz; [|done].
  destruct (decide (x = y)) as [->|Hne]; [congruence|].
  destruct (size_lt_total x y Hne) as [|Hyx]; [congruence|].
  by rewrite (size_lt_trans _ _ _ Hyx Hxz) in Hyz.
Qed.

Lemma size_ge_refl x : size_ge x x.
Proof. apply size_lt_irrefl. Qed.
End size_order.

#[export] Hint Resolve size_lt_asym size_lt_ne size_ge_refl : outline.

(** ** Shared tactics *)

(** Case on the first boolean test of the goal, remembering its value. *)
Ltac case_bool :=
  match goal with
  | |- context [if ?b then _ else _] =>
      lazymatch b with
      | decide _ => case_decide
      | _ => let E := fresh "Eb" in destruct b eqn:E
      end
  end.

(** Turn the boolean tests of the hypotheses into propositions. *)
Ltac bool_to_prop :=
  repeat match goal with
  | H : (_ && _)%bool = true |- _ => apply andb_prop in H as [? ?]
  | H : negb _ = true |- _ => apply negb_true_iff in H
  | H : (_ =? _)%string = true |- _ => apply String.eqb_eq in H
  | H : (_ =? _)%nat = true |- _ => apply Nat.eqb_eq in H
  | H : (_ <? _)%nat = true |- _ => apply Nat.ltb_lt in H
  | H : (_ <? _)%nat = false |- _ => apply Nat.ltb_ge in H
  end.

(** ** Generic lemmas on lists and options *)

Lemma foldl_app_snoc {A B} (f : A -> B -> A) (l : list B) (x : B) (a : A) :
  foldl f a (l ++ [x]) = f (foldl f a l) x.
Proof. by rewrite foldl_app. Qed.

Lemma head_app_cons {A} (l1 l2 : list A) x : head (l1 ++ x :: l2) = Some (default x (head l1)).
Proof. by destruct l1. Qed.


Section filter_lemmas.
Context {A : Type} (P Q : A -> Prop) `{!forall x, Decision (P x)} `{!forall x, Decision (Q x)}.

Lemma filter_nil_forall (l : list A) : (forall x, x ∈ l -> ~ P x) -> filter P l = [].
Proof.
  induction l as [|y l IH]; intros Hl; [done|]. rewrite filter_cons.
  case_decide; [exfalso; by eapply (Hl y); [left|]|]. apply IH. set_solver.
Qed.

Lemma filter_length_mono (l : list A) :
  (forall y, P y -> Q y) -> length (filter P l) <= length (filter Q l).
Proof.
  intros HPQ. induction l as [|y l IH]; [done|]. rewrite !filter_cons.
  repeat case_decide; simpl; naive_solver lia.
Qed.

(** A witness of [Q] that fails [P] makes the [Q]-filter strictly longer. *)
Lemma filter_length_lt_mono (l : list A) x :
  (forall y, P y -> Q y) -> x ∈ l -> Q x -> ~ P x ->
  length (filter P l) < length (filter Q l).
Proof.
  intros HPQ Hx HQ HP. induction l as [|y l IH]; [set_solver|].
  pose proof (filter_length_mono l HPQ).
  rewrite !filter_cons. apply elem_of_cons in Hx as [->|Hx].
  - repeat case_decide; simpl; naive_solver lia.
  - specialize (IH Hx). repeat case_decide; simpl; naive_solver lia.
Qed.
End filter_lemmas.


(** ** Sortedness under sublists, maps and partial maps *)

Section sorted_lemmas.
Context {A B : Type}.

Lemma StronglySorted_sublist (R : relation A) (l1 l2 : list A) :
  l1 `sublist_of` l2 -> StronglySorted R l2 -> StronglySorted R l1.
Proof.
  induction 1 as [|x l1 l2 Hsub IH|x l1 l2 Hsub IH]; intros HS; [constructor| |].
  - apply StronglySorted_cons in HS as [Hx HS]. apply StronglySorted_cons. split; [|by apply IH].
    rewrite Forall_forall in Hx |- *. intros y Hy. apply Hx. by eapply elem_of_sublist.
  - apply StronglySorted_cons in HS as [_ HS]. by apply IH.
Qed.

Lemma StronglySorted_map_iff (R : relation B) (f : A -> B) (l : list A) :
  StronglySorted R (map f l) <-> StronglySorted (fun x y => R (f x) (f y)) l.
Proof.
  induction l as [|x l IH]; simpl; [split; constructor|].
  rewrite !StronglySorted_cons, IH, Forall_map. done.
Qed.

Lemma StronglySorted_omap (RA : relation A) (RB : relation B) (f : A -> option B) l :
  (forall x y a b, f x = Some a -> f y = Some b -> RA x y -> RB a b) ->
  StronglySorted RA l -> StronglySorted RB (omap f l).
Proof.
  intros Hf. induction l as [|x l IH]; intros HS; simpl; [constructor|].
  apply StronglySorted_cons in HS as [Hx HS].
  destruct (f x) as [a|] eqn:Ha; [|by apply IH]. constructor; [by apply IH|].
  apply Forall_forall. intros b (y & Hy & Hb)%list_elem_of_omap.
  rewrite Forall_forall in Hx. eauto.
Qed.
End sorted_lemmas.

(** ** Lists whose elements all equal one value *)

Lemma last_all_eq {A} (l : list A) x : x ∈ l -> (forall y, y ∈ l -> y = x) -> last l = Some x.
Proof.
  induction l as [|y l IH] using rev_ind; [set_solver|]. intros _ Hall.
  rewrite last_snoc. f_equal. apply Hall. set_solver.
Qed.

Lemma NoDup_map_inj_on {A B} (g : A -> B) (l : list A) x y :
  NoDup (map g l) -> x ∈ l -> y ∈ l -> g x = g y -> x = y.
Proof.
  induction l as [|z l IH]; simpl; [set_solver|]. intros [Hz Hnd]%NoDup_cons Hx Hy Hg.
  apply elem_of_cons in Hx as [->|Hx], Hy as [->|Hy]; try done.
  - exfalso. apply Hz, list_elem_of_In, in_map_iff. exists y. split; [done|]. by apply list_elem_of_In.
  - exfalso. apply Hz, list_elem_of_In, in_map_iff. exists x. split; [done|]. by apply list_elem_of_In.
  - by apply IH.
Qed.

(** The first element of a list that has a property splits it. *)
Lemma list_first_split {A} (P : A -> Prop) `{!forall x, Decision (P x)} (l : list A) :
  (exists x, x ∈ l /\ P x) ->
  exists pre x post, l = pre ++ x :: post /\ P x /\ forall y, y ∈ pre -> ~ P y.
Proof.
  induction l as [|z l IH]; [set_solver|]. intros (x & Hx & HP).
  destruct (decide (P z)) as [Hz|Hz].
  - exists [], z, l. set_solver.
  - destruct IH as (pre & y & post & -> & Hy & Hpre).
    + apply elem_of_cons in Hx as [->|Hx]; [done|eauto].
    + exists (z :: pre), y, post. split; [done|]. split; [done|]. set_solver.
Qed.

Lemma omap_cons {A B} (f : A -> option B) x l :
  omap f (x :: l) = match f x with Some y => y :: omap f l | None => omap f l end.
Proof. reflexivity. Qed.

(** An element of [omap f l] comes from an element of [l]; what precedes
    it comes from what precedes that element. *)
Lemma omap_split {A B} (f : A -> option B) (l : list A) l1 y l2 :
  omap f l = l1 ++ y :: l2 ->
  exists pre x post, l = pre ++ x :: post /\ f x = Some y /\ omap f pre = l1.
Proof.
  revert l1. induction l as [|a l IH]; intros l1 Hl; simpl in Hl; [by destruct l1|].
  destruct (f a) as [b|] eqn:Ha.
  - destruct l1 as [|b' l1]; simpl in Hl; injection Hl as Hb Hl.
    + subst. exists [], a, l. by rewrite Ha.
    + subst b'. destruct (IH l1 Hl) as (pre & x & post & -> & Hx & Hpre).
      exists (a :: pre), x, post. by rewrite omap_cons, Ha, Hpre.
  - destruct (IH l1 Hl) as (pre & x & post & -> & Hx & Hpre).
    exists (a :: pre), x, post. by rewrite omap_cons, Ha, Hpre.
Qed.

Lemma elem_of_concat_map {A B} (g : A -> list B) (l : list A) a b :
  a ∈ l -> b ∈ g a -> b ∈ List.concat (map g l).
Proof.
  induction l as [|c l IH]; [set_solver|]. simpl. rewrite elem_of_app.
  intros [->|Ha]%elem_of_cons Hb; [by left|right; by apply IH].
Qed.

(** ** Generic lemmas on strings

    stdpp makes [String.append] [simpl never]; these equations give its
    computation rules back. *)

Lemma string_app_nil_l (s : string) : ("" ++ s)%string = s.
Proof. reflexivity. Qed.

Lemma string_app_cons c (a b : string) : (String c a ++ b)%string = String c (a ++ b).
Proof. reflexivity. Qed.

Lemma string_app_nil_r (s : string) : (s ++ "")%string = s.
Proof. induction s as [|c s IH]; [done|]. by rewrite string_app_cons, IH. Qed.

Lemma string_app_assoc (a b c : string) : ((a ++ b) ++ c)%string = (a ++ (b ++ c))%string.
Proof. induction a as [|x a IH]; [done|]. by rewrite !string_app_cons, IH. Qed.

Lemma string_app_inv_l (a b c : string) : (a ++ b)%string = (a ++ c)%string -> b = c.
Proof. induction a as [|x a IH]; [done|]. rewrite !string_app_cons. intros [= H]. by apply IH. Qed.

Lemma string_length_app (a b : string) :
  String.length (a ++ b)%string = String.length a + String.length b.
Proof. induction a as [|c a IH]; [done|]. rewrite string_app_cons. simpl. by rewrite IH. Qed.

#[export] Hint Rewrite @foldl_app_snoc string_app_nil_l string_app_cons string_app_nil_r string_length_app : outline_rw.
