(* ===== verification/PyStr.v ===== *)
(** * Python string operations used by src/main.py

    Module [PyStr] models, on ASCII strings, the built-in string and path
    operations the program calls: [str.strip] (main.py 26), [str.endswith]
    (main.py 12), the substring test ["Bold" in font] (main.py 31),
    [str.replace] (main.py 66, 85), [posixpath.basename] (main.py 66),
    [posixpath.join] (main.py 83) and [str.endswith] on file names
    (main.py 82).  Each is a structural Fixpoint, so the witnesses
    evaluate them.  Characters outside ASCII are not modelled. *)

From stdpp Require Import base list strings.
From Stdlib Require Import Ascii String.
From S2P Require Import Prelude.

Module PyStr.
Local Open Scope string_scope.

(** CPython's [str.isspace] on the ASCII range: [\t \n \v \f \r] (9-13),
    the separators 0x1C-0x1F and the space (0x20). *)
Definition isspace (c : ascii) : bool :=
  let n := Ascii.nat_of_ascii c in
  (Nat.leb 9 n && Nat.leb n 13) || (Nat.leb 28 n && Nat.leb n 32).

(** [s.lstrip()]: drop the leading whitespace. *)
Fixpoint lstrip (s : string) : string :=
  match s with
  | EmptyString => EmptyString
  | String c s' => if isspace c then lstrip s' else s
  end.

(** [s.rstrip()]: drop the trailing whitespace. *)
Fixpoint rstrip (s : string) : string :=
  match s with
  | EmptyString => EmptyString
  | String c s' =>
      let r := rstrip s' in
      if isspace c && String.eqb r "" then "" else String c r
  end.

(** [s.strip()]: CPython's [do_strip] finds the first and the last
    non-whitespace character and returns the slice between them. *)
Definition strip (s : string) : string := rstrip (lstrip s).

(** [s.endswith(suf)]: some suffix of [s] is [suf]. *)
Fixpoint endswith (suf s : string) : bool :=
  String.eqb s suf ||
  match s with
  | EmptyString => false
  | String _ s' => endswith suf s'
  end.

(** [sub in s]: [sub] is a prefix of some suffix of [s]. *)
Fixpoint contains (sub s : string) : bool :=
  String.prefix sub s ||
  match s with
  | EmptyString => false
  | String _ s' => contains sub s'
  end.

(** [s.replace(old, new)] for a non-empty [old]: scan left to right; at
    an occurrence of [old], emit [new] and skip the [length old - 1]
    further characters of the occurrence ([skip] counts them). *)
Fixpoint replace_go (old new : string) (skip : nat) (s : string) : string :=
  match s with
  | EmptyString => EmptyString
  | String c s' =>
      match skip with
      | S k => replace_go old new k s'
      | O =>
          if String.prefix old s
          then new ++ replace_go old new (String.length old - 1) s'
          else String c (replace_go old new 0 s')
      end
  end.

(** With an empty [old], Python inserts [new] before every character
    and at the end. *)
Fixpoint interleave (new s : string) : string :=
  match s with
  | EmptyString => new
  | String c s' => new ++ String c (interleave new s')
  end.

Definition replace (old new s : string) : string :=
  match old with
  | EmptyString => interleave new s
  | _ => replace_go old new 0 s
  end.

(** [posixpath.basename(p)]: [p[p.rfind('/') + 1:]], the text after the
    last slash. *)
Fixpoint basename (p : string) : string :=
  match p with
  | EmptyString => EmptyString
  | String c p' =>
      if Ascii.eqb c "/" then basename p'
      else if contains "/" p' then basename p' else p
  end.

(** [posixpath.join(a, b)] with one component: an absolute [b] wins; a
    separator is added unless [a] is empty or already ends with one. *)
Definition join (a b : string) : string :=
  if String.prefix "/" b then b
  else if String.eqb a "" || endswith "/" a then a ++ b
  else a ++ "/" ++ b.

(** ** Lemmas *)

Lemma contains_cons_false sub c s :
  contains sub (String c s) = false -> contains sub s = false.
Proof. simpl. by intros [_ ?]%orb_false_elim. Qed.

Lemma contains_app_r sub a t :
  contains sub t = true -> contains sub (a ++ t) = true.
Proof. intros H. induction a as [|c a IH]; simpl; [done|]. by rewrite IH, orb_true_r. Qed.

Lemma contains_slash_cons s : contains "/" (String "/" s) = true.
Proof. by destruct s. Qed.

(** A name without a slash is its own basename. *)
Lemma basename_noslash f : contains "/" f = false -> basename f = f.
Proof.
  induction f as [|c f IH]; [done|]. intros Hf. simpl.
  destruct (Ascii.eqb_spec c "/") as [->|Hc]; [by rewrite contains_slash_cons in Hf|].
  by rewrite (contains_cons_false _ _ _ Hf).
Qed.

(** The basename of [a/f] is [f]. *)
Lemma basename_app_slash a f :
  contains "/" f = false -> basename (a ++ String "/" f) = f.
Proof.
  intros Hf. induction a as [|c a IH]; simpl.
  - by apply basename_noslash.
  - rewrite (contains_app_r "/" a (String "/" f) (contains_slash_cons f)).
    by destruct (Ascii.eqb c "/").
Qed.

Lemma endswith_slash_split a :
  endswith "/" a = true -> exists a', a = a' ++ "/".
Proof.
  induction a as [|c a IH]; [done|].
  change ((String.eqb (String c a) "/" || endswith "/" a) = true -> exists a', String c a = a' ++ "/").
  destruct (String.eqb_spec (String c a) "/") as [Ha|_].
  - intros _. exists "". by rewrite Ha.
  - intros [a' ->]%IH. by exists (String c a').
Qed.


(** [os.path.basename(os.path.join(d, f)) == f] for a file name [f]
    without a slash, such as the entries of [os.listdir]. *)
Lemma basename_join d f :
  contains "/" f = false -> basename (join d f) = f.
Proof.
  intros Hf. unfold join.
  assert (String.prefix "/" f = false) as ->.
  { destruct f as [|c f]; [done|]. simpl in Hf |- *.
    apply orb_false_elim in Hf as [Hp _]. done. }
  destruct (String.eqb d "" || endswith "/" d) eqn:Hd.
  - apply orb_true_elim in Hd as [Hd|Hd].
    + apply String.eqb_eq in Hd as ->. by apply basename_noslash.
    + apply endswith_slash_split in Hd as [d' ->].
      rewrite string_app_assoc. by apply basename_app_slash.
  - by apply basename_app_slash.
Qed.

Lemma rstrip_idem s : rstrip (rstrip s) = rstrip s.
Proof.
  induction s as [|c s IH]; [done|]. simpl.
  destruct (isspace c && String.eqb (rstrip s) "") eqn:E; [done|].
  simpl. by rewrite IH, E.
Qed.

(** Text that does not start with whitespace keeps its head through
    [rstrip] unless it is whitespace only. *)
Lemma lstrip_rstrip s :
  (match s with String c _ => isspace c = false | EmptyString => True end) ->
  lstrip (rstrip s) = rstrip s.
Proof. destruct s as [|c s]; [done|]. simpl. intros Hc. rewrite Hc. simpl. by rewrite Hc. Qed.

Lemma lstrip_head s :
  match lstrip s with String c _ => isspace c = false | EmptyString => True end.
Proof.
  induction s as [|c s IH]; [done|]. simpl.
  destruct (isspace c) eqn:E; [done|]. done.
Qed.

(** [str.strip] is idempotent: the program's fragment texts are stripped. *)
Lemma strip_idem s : strip (strip s) = strip s.
Proof.
  unfold strip. rewrite lstrip_rstrip by apply lstrip_head.
  by rewrite rstrip_idem.
Qed.

(** Whitespace-only text strips to the empty string. *)
Lemma strip_all_space s : forallb isspace (String.list_ascii_of_string s) = true -> strip s = "".
Proof.
  unfold strip. induction s as [|c s IH]; [done|]. simpl.
  intros [-> Hs]%andb_prop. by apply IH.
Qed.

(** [s.endswith(suf)] holds exactly when [s] is some [u + suf]. *)
Lemma endswith_spec suf s : endswith suf s = true <-> exists u, s = u ++ suf.
Proof.
  induction s as [|c s IH].
  - split.
    + intros H. exists "". destruct suf; [done|]. simpl in H. done.
    + intros [u Hu]. destruct u, suf; simpl in *; done.
  - change ((String.eqb (String c s) suf || endswith suf s) = true <-> exists u, String c s = u ++ suf).
    rewrite orb_true_iff, IH, String.eqb_eq. split.
    + intros [<-|[u ->]]; [by exists ""|]. exists (String c u). done.
    + intros [[|c' u] Hu]; [by left|]. rewrite string_app_cons in Hu.
      injection Hu as -> ->. right. by exists u.
Qed.

(** ** [str.replace] on text whose head has no occurrence

    The program's patterns start with a dot ([".pdf"]); a stem without
    that character is copied as it is, an occurrence is replaced, and the
    scan goes on after it. *)

Lemma prefix_char c d t : String.prefix (String c "") (String d t) = bool_decide (c = d).
Proof. simpl. destruct (ascii_dec c d); case_bool_decide; try done. by destruct t. Qed.

Lemma string_prefix_app a t : String.prefix a (a ++ t) = true.
Proof.
  induction a as [|c a IH]; [by destruct t|]. rewrite string_app_cons. simpl.
  destruct (ascii_dec c c); [done|congruence].
Qed.

Lemma contains_char_app c a b :
  contains (String c "") (a ++ b) = contains (String c "") a || contains (String c "") b.
Proof.
  induction a as [|d a IH]; [done|]. rewrite string_app_cons. cbn [contains].
  rewrite !prefix_char, IH. by rewrite orb_assoc.
Qed.

Lemma replace_go_skip old new r t :
  replace_go old new (String.length r) (r ++ t) = replace_go old new 0 t.
Proof. induction r as [|c r IH]; [done|]. rewrite string_app_cons. simpl. apply IH. Qed.

Lemma replace_go_match c0 rest new t :
  replace_go (String c0 rest) new 0 (String c0 rest ++ t) = new ++ replace_go (String c0 rest) new 0 t.
Proof.
  rewrite string_app_cons. cbn [replace_go]. rewrite <- string_app_cons, string_prefix_app.
  replace (String.length (String c0 rest) - 1) with (String.length rest) by (simpl; lia).
  by rewrite replace_go_skip.
Qed.

Lemma replace_go_stem c0 rest new u t :
  contains (String c0 "") u = false ->
  replace_go (String c0 rest) new 0 (u ++ t) = u ++ replace_go (String c0 rest) new 0 t.
Proof.
  induction u as [|d u IH]; [done|]. cbn [contains]. rewrite prefix_char.
  intros [Hd Hu]%orb_false_elim. rewrite !string_app_cons. cbn [replace_go].
  assert (String.prefix (String c0 rest) (String d (u ++ t)) = false) as ->.
  { simpl. destruct (ascii_dec c0 d); [|done]. by rewrite bool_decide_true in Hd. }
  by rewrite IH.
Qed.

(** [s.replace(".pdf", new)] on [u + ".pdf" + t], [u] without a dot. *)
Lemma replace_pdf_stem new u t :
  contains "." u = false -> replace ".pdf" new (u ++ t) = u ++ replace ".pdf" new t.
Proof. apply replace_go_stem. Qed.

Lemma replace_pdf_match new t : replace ".pdf" new (".pdf" ++ t) = new ++ replace ".pdf" new t.
Proof. apply replace_go_match. Qed.

End PyStr.
