(* ===== verification/Filter.v ===== *)
(** * The fragment filter: [is_heading] (src/main.py 10-12)

    [return text and len(text) < 100 and not text.endswith('.')].  The
    expression yields [text] itself when it is empty, otherwise a bool;
    its only caller tests it with [not], so the model returns its
    truthiness.  [len] counts characters (ASCII here). *)

From stdpp Require Import base list strings.
From Stdlib Require Import Ascii String.
From S2P Require Import Prelude PyStr.

Module Filter.
Local Open Scope string_scope.

Definition is_heading (text : string) : bool :=
  negb (String.eqb text "") && Nat.ltb (String.length text) 100
  && negb (PyStr.endswith "." text).

(** The filter as three conditions on the text itself. *)
Lemma is_heading_true_iff text :
  is_heading text = true <->
  text <> "" /\ String.length text < 100 /\ ~ exists u, text = u ++ ".".
Proof.
  unfold is_heading. rewrite !andb_true_iff, !negb_true_iff, Nat.ltb_lt.
  rewrite <- PyStr.endswith_spec.
  destruct (String.eqb_spec text ""), (PyStr.endswith "." text); intuition congruence.
Qed.

(** (C3) The filter rejects the empty text, text of 100 characters or
    more, and text that ends with a period: whatever [is_heading] accepts
    is short, non-empty and has no final period. *)
Theorem is_heading_rejects text :
  (text = "" \/ 100 <= String.length text \/ exists u, text = u ++ ".") ->
  is_heading text = false.
Proof.
  intros Hbad. destruct (is_heading text) eqn:E; [|done].
  apply is_heading_true_iff in E as (? & ? & ?). exfalso. intuition lia.
Qed.

Lemma is_heading_rejects_witness :
  (exists u, "Body text." = u ++ ".") /\ is_heading "Body text." = false.
Proof.
  assert (Hu : exists u, "Body text." = u ++ ".") by (exists "Body text"; reflexivity).
  split; [exact Hu|]. apply is_heading_rejects. right. right. exact Hu.
Defined.

(** (C4) In the program the filter only sees stripped text
    ([span["text"].strip()], main.py 26), so a whitespace-only span is
    never heading-shaped. *)
Theorem is_heading_strip_blank text :
  forallb PyStr.isspace (String.list_ascii_of_string text) = true ->
  is_heading (PyStr.strip text) = false.
Proof. intros H. by rewrite PyStr.strip_all_space. Qed.

Lemma is_heading_strip_blank_witness :
  forallb PyStr.isspace (String.list_ascii_of_string "   ") = true /\
  is_heading (PyStr.strip "   ") = false.
Proof. split; [reflexivity|]. apply is_heading_strip_blank. reflexivity. Defined.

(** (C28) Called on its own, the filter accepts whitespace: every
    non-empty whitespace-only text of fewer than 100 characters is
    heading-shaped.  The spec's "returns false for empty/whitespace-only
    text" holds only because the caller strips first (C4). *)
Theorem is_heading_accepts_blank s :
  s <> "" -> String.length s < 100 ->
  forallb PyStr.isspace (String.list_ascii_of_string s) = true ->
  is_heading s = true.
Proof.
  intros Hne Hlen Hsp. apply is_heading_true_iff. split; [done|]. split; [done|].
  intros [u ->]. clear Hne Hlen. induction u as [|c u IH]; [discriminate|].
  rewrite string_app_cons in Hsp. simpl in Hsp. apply andb_prop in Hsp as [_ Hsp]. by apply IH.
Qed.

Lemma is_heading_accepts_blank_witness :
  "   " <> "" /\ String.length "   " < 100 /\
  forallb PyStr.isspace (String.list_ascii_of_string "   ") = true /\
  is_heading "   " = true.
Proof.
  split; [discriminate|]. split; [simpl; lia|]. split; [reflexivity|].
  apply is_heading_accepts_blank; [discriminate|simpl; lia|reflexivity].
Defined.

End Filter.
