(* ===== verification/Fragments.v ===== *)
(** * The fragment source: the span walk of [extract_headings]
      (src/main.py 16-44)

    PyMuPDF's [page.get_text("dict")] gives a page as a list of blocks;
    a text block has ["lines"], each line ["spans"], each span a
    ["text"], a ["size"] and a ["font"]; an image block has no ["lines"]
    key.  The records below have exactly these fields; a block's
    [block_lines] is [None] when the key is absent, a page's
    [page_blocks] is [None] when [get_text] raises.

    Two collaborators are interfaces ([Class]es): [PdfReader], for
    [fitz.open] (None when the file cannot be opened), and [LangDetector],
    for [langdetect.detect] (None when it raises).  The walk
    [text_blocks] builds main.py's [text_blocks] list, or [None] when a
    page fails (the exception leaves the [try] block). *)

From stdpp Require Import base list strings sorting.
From Stdlib Require Import Ascii String ZArith.
From S2P Require Import Prelude PyStr Filter.

Module Fragments.

Record span (K : Type) := mk_span {
  span_text : string;
  span_size : K;
  span_font : string
}.

Record line (K : Type) := mk_line { line_spans : list (span K) }.

Record block (K : Type) := mk_block { block_lines : option (list (line K)) }.

Record page (K : Type) := mk_page { page_blocks : option (list (block K)) }.

Definition document (K : Type) := list (page K).

(** One element of main.py's [text_blocks] (the dict of lines 37-44). *)
Record fragment (K : Type) := mk_fragment {
  fr_text : string;
  fr_font_size : K;
  fr_font : string;
  fr_is_bold : bool;
  fr_lang : string;
  fr_page : nat
}.

Arguments mk_span {K}. Arguments span_text {K}. Arguments span_size {K}.
Arguments span_font {K}. Arguments mk_line {K}. Arguments line_spans {K}.
Arguments mk_block {K}. Arguments block_lines {K}. Arguments mk_page {K}.
Arguments page_blocks {K}. Arguments mk_fragment {K}. Arguments fr_text {K}.
Arguments fr_font_size {K}. Arguments fr_font {K}. Arguments fr_is_bold {K}.
Arguments fr_lang {K}. Arguments fr_page {K}.

(** [fitz.open(pdf_path)]: the pages of the file, or [None] if it raises. *)
Class PdfReader (K : Type) := { fitz_open : string -> option (document K) }.

(** [langdetect.detect(text)]: a language code, or [None] if it raises. *)
Class LangDetector := { detect : string -> option string }.

Section walk.
Context {K : Type} `{LangDetector}.

(** [lang = ""; try: lang = detect(text) except: pass] (main.py 32-36). *)
Definition detect_lang (text : string) : string :=
  match detect text with Some l => l | None => ""%string end.

(** One span (main.py 26-44): strip, filter, record. *)
Definition span_fragment (page_num : nat) (sp : span K) : option (fragment K) :=
  let text := PyStr.strip (span_text sp) in
  if negb (Filter.is_heading text) then None
  else Some (mk_fragment text (span_size sp) (span_font sp)
               (PyStr.contains "Bold" (span_font sp)) (detect_lang text) page_num).

Definition line_fragments (page_num : nat) (ln : line K) : list (fragment K) :=
  omap (span_fragment page_num) (line_spans ln).

(** [if "lines" not in block: continue] (main.py 22-23). *)
Definition block_fragments (page_num : nat) (b : block K) : list (fragment K) :=
  match block_lines b with
  | None => []
  | Some lns => List.concat (map (line_fragments page_num) lns)
  end.

Definition page_fragments (page_num : nat) (bs : list (block K)) : list (fragment K) :=
  List.concat (map (block_fragments page_num) bs).

(** [for page_num, page in enumerate(doc, start=1)] (main.py 19-20). *)
Fixpoint collect_from (page_num : nat) (pages : document K) : option (list (fragment K)) :=
  match pages with
  | [] => Some []
  | p :: ps =>
      match page_blocks p with
      | None => None
      | Some bs =>
          rest ← collect_from (S page_num) ps;
          Some (page_fragments page_num bs ++ rest)
      end
  end.

Definition text_blocks (doc : document K) : option (list (fragment K)) :=
  collect_from 1 doc.
End walk.

(** A detector that always raises, and the spec's sample document
    (section 8 of spec.md), with an image block and padded text added;
    sizes are in points. *)
Definition failing_detector : LangDetector := {| detect _ := None |}.

Definition sample_doc : document Z :=
  [ mk_page (Some [ mk_block None;
                    mk_block (Some [ mk_line [ mk_span "Intro" 18%Z "Arial-BoldMT";
                                               mk_span "This is body text." 12%Z "ArialMT" ] ]) ]);
    mk_page (Some [ mk_block (Some [ mk_line [ mk_span "Intro" 18%Z "Arial-BoldMT" ];
                                     mk_line [ mk_span "  Background " 14%Z "ArialMT" ] ]) ]) ]%string.

(** Fragments with the language field cleared, to compare walks that
    differ only in their detector. *)
Definition forget_lang {K} (f : fragment K) : fragment K :=
  mk_fragment (fr_text f) (fr_font_size f) (fr_font f) (fr_is_bold f) ""%string (fr_page f).

Section walk_lemmas.
Context {K : Type}.

Lemma span_fragment_some `{LangDetector} n (sp : span K) f :
  span_fragment n sp = Some f ->
  fr_page f = n /\ fr_text f = PyStr.strip (span_text sp) /\
  Filter.is_heading (fr_text f) = true /\ fr_font_size f = span_size sp.
Proof.
  unfold span_fragment. destruct (Filter.is_heading _) eqn:E; simpl; [|done].
  intros [= <-]. simpl. auto.
Qed.

Lemma in_page_fragments `{LangDetector} f n (bs : list (block K)) :
  In f (page_fragments n bs) -> exists sp, span_fragment n sp = Some f.
Proof.
  unfold page_fragments. intros (l & Hl & Hf)%in_concat.
  apply in_map_iff in Hl as (b & <- & _). unfold block_fragments in Hf.
  destruct (block_lines b); [|done].
  apply in_concat in Hf as (l' & Hl' & Hf). apply in_map_iff in Hl' as (ln & <- & _).
  apply list_elem_of_In, list_elem_of_omap in Hf as (sp & _ & Hsp). eauto.
Qed.

(** Every fragment of a successful walk from page [n] comes from a span
    of its own page, and that page is one of the walk's. *)
Lemma collect_from_in `{LangDetector} n (ps : document K) fs f :
  collect_from n ps = Some fs -> In f fs ->
  (exists sp, span_fragment (fr_page f) sp = Some f) /\
  n <= fr_page f < n + List.length ps.
Proof.
  revert n fs. induction ps as [|p ps IH]; intros n fs; simpl.
  - by intros [= <-].
  - destruct (page_blocks p) as [bs|]; [|done].
    destruct (collect_from (S n) ps) as [rest|] eqn:Hr; simpl; [|done].
    intros [= <-] [Hf|Hf]%in_app_or.
    + destruct (in_page_fragments _ _ _ Hf) as [sp Hsp].
      destruct (span_fragment_some _ _ _ Hsp) as (-> & _). split; [eauto|lia].
    + destruct (IH _ _ Hr Hf) as [? ?]. split; [done|lia].
Qed.

Lemma page_fragments_page `{LangDetector} n (bs : list (block K)) f :
  In f (page_fragments n bs) -> fr_page f = n.
Proof. intros (sp & Hsp)%in_page_fragments. by apply span_fragment_some in Hsp as [-> _]. Qed.

Lemma span_fragment_forget (d1 d2 : LangDetector) n (sp : span K) :
  forget_lang <$> span_fragment (H:=d1) n sp = forget_lang <$> span_fragment (H:=d2) n sp.
Proof. unfold span_fragment. by destruct (Filter.is_heading _). Qed.

Lemma page_fragments_forget_lang (d1 d2 : LangDetector) n (bs : list (block K)) :
  map forget_lang (page_fragments (H:=d1) n bs) = map forget_lang (page_fragments (H:=d2) n bs).
Proof.
  unfold page_fragments. rewrite !concat_map, !map_map. f_equal. apply map_ext. intros b.
  unfold block_fragments. destruct (block_lines b) as [lns|]; [|done].
  rewrite !concat_map, !map_map. f_equal. apply map_ext. intros ln.
  unfold line_fragments. induction (line_spans ln) as [|sp sps IHs]; [done|]. simpl.
  pose proof (span_fragment_forget d1 d2 n sp) as Hsp.
  destruct (span_fragment (H:=d1) n sp), (span_fragment (H:=d2) n sp);
    simpl in Hsp |- *; try discriminate; [f_equal; [congruence|exact IHs]|exact IHs].
Qed.

Lemma collect_none_iff `{LangDetector} (doc : document K) :
  text_blocks doc = None <-> exists p, In p doc /\ page_blocks p = None.
Proof.
  unfold text_blocks. generalize 1. induction doc as [|p ps IH]; intros n; simpl.
  - split; [done|]. by intros (? & [] & _).
  - destruct (page_blocks p) as [bs|] eqn:Hp.
    + destruct (collect_from (S n) ps) eqn:Hr; simpl.
      * split; [done|]. intros (q & [<-|Hq] & Hq'); [congruence|].
        assert (collect_from (S n) ps = None) by (apply IH; eauto). congruence.
      * split; [|done]. intros _. destruct (proj1 (IH (S n)) Hr) as (q & ? & ?). eauto.
    + split; [|done]. intros _. eauto.
Qed.

Lemma text_blocks_forget_lang (d1 d2 : LangDetector) (doc : document K) :
  map forget_lang <$> text_blocks (H:=d1) doc = map forget_lang <$> text_blocks (H:=d2) doc.
Proof.
unfold text_blocks. generalize 1. induction doc as [|p ps IH]; intros n; [done|]. simpl.
destruct (page_blocks p) as [bs|]; [|done].
specialize (IH (S n)).
destruct (collect_from (H:=d1) (S n) ps), (collect_from (H:=d2) (S n) ps); simpl in *;
  try discriminate; [|done].
injection IH as IH. by rewrite !map_app, IH, (page_fragments_forget_lang d1 d2).
Qed.
End walk_lemmas.

Section walk_theorems.
Context {K : Type} `{LangDetector}.

(** (C9) Every fragment the walk collects is stripped text that passes
    [is_heading], taken from a span of its own page, and its page number
    lies between 1 and the number of pages. *)
Theorem text_blocks_wf (doc : document K) fs :
  text_blocks doc = Some fs ->
  Forall (fun f => Filter.is_heading (fr_text f) = true /\
                   PyStr.strip (fr_text f) = fr_text f /\
                   1 <= fr_page f <= List.length doc) fs.
Proof.
  intros Hfs. apply Forall_forall. intros f Hf%list_elem_of_In.
  destruct (collect_from_in _ _ _ _ Hfs Hf) as [[sp Hsp] Hpg].
  destruct (span_fragment_some _ _ _ Hsp) as (_ & Ht & Hh & _).
  split; [done|]. split; [|lia]. by rewrite Ht, PyStr.strip_idem.
Qed.

Lemma collect_from_sorted n (ps : document K) fs :
  collect_from n ps = Some fs -> StronglySorted le (map fr_page fs).
Proof.
  revert n fs. induction ps as [|p ps IH]; intros n fs; simpl.
  - intros [= <-]. constructor.
  - destruct (page_blocks p) as [bs|]; [|done].
    destruct (collect_from (S n) ps) as [rest|] eqn:Hr; simpl; [|done].
    intros [= <-]. rewrite map_app. apply StronglySorted_app_2; [| |by eapply IH].
    + intros x1 x2 (f1 & <- & Hf1)%list_elem_of_In%in_map_iff
        (f2 & <- & Hf2)%list_elem_of_In%in_map_iff.
      rewrite (page_fragments_page _ _ _ Hf1).
      destruct (collect_from_in _ _ _ _ Hr Hf2) as [_ ?]; lia.
    + assert (Forall (eq n) (map fr_page (page_fragments n bs))) as Hn.
      { apply Forall_forall. intros x (f & <- & Hf)%list_elem_of_In%in_map_iff.
        by rewrite (page_fragments_page _ _ _ Hf). }
      induction Hn as [|x l <- Hl IHl]; constructor; [done|].
      apply Forall_forall. intros y Hy. rewrite Forall_forall in Hl. by rewrite <- (Hl y Hy).
Qed.

(** (C10) The walk emits fragments in page order: their page numbers
    never decrease. *)
Theorem text_blocks_pages_sorted (doc : document K) fs :
  text_blocks doc = Some fs -> StronglySorted le (map fr_page fs).
Proof. apply collect_from_sorted. Qed.

(** (C11) A document's walk fails exactly when one of its pages cannot
    be read: there is no partial result. *)
Theorem text_blocks_none_iff (doc : document K) :
  text_blocks doc = None <-> exists p, In p doc /\ page_blocks p = None.
Proof. apply collect_none_iff. Qed.
End walk_theorems.

(** The language tag never changes anything else: two detectors
    give the same fragments up to their [lang] field, and fail on the
    same documents. *)
Theorem text_blocks_lang_independent {K} (d1 d2 : LangDetector) (doc : document K) :
  map forget_lang <$> text_blocks (H:=d1) doc = map forget_lang <$> text_blocks (H:=d2) doc.
Proof. apply text_blocks_forget_lang. Qed.

Lemma text_blocks_wf_witness :
  text_blocks (H:=failing_detector) sample_doc =
    Some [ mk_fragment "Intro" 18%Z "Arial-BoldMT" true "" 1;
           mk_fragment "Intro" 18%Z "Arial-BoldMT" true "" 2;
           mk_fragment "Background" 14%Z "ArialMT" false "" 2 ]%string /\
  Forall (fun f : fragment Z => Filter.is_heading (fr_text f) = true /\
            PyStr.strip (fr_text f) = fr_text f /\ 1 <= fr_page f <= 2)
    [ mk_fragment "Intro" 18%Z "Arial-BoldMT" true "" 1;
      mk_fragment "Intro" 18%Z "Arial-BoldMT" true "" 2;
      mk_fragment "Background" 14%Z "ArialMT" false "" 2 ]%string.
Proof.
  assert (Hw : text_blocks (H:=failing_detector) sample_doc =
    Some [ mk_fragment "Intro" 18%Z "Arial-BoldMT" true "" 1;
           mk_fragment "Intro" 18%Z "Arial-BoldMT" true "" 2;
           mk_fragment "Background" 14%Z "ArialMT" false "" 2 ]%string) by reflexivity.
  split; [exact Hw|]. exact (text_blocks_wf (H:=failing_detector) sample_doc _ Hw).
Defined.

Lemma text_blocks_pages_sorted_witness :
  StronglySorted le [1; 2; 2].
Proof.
  exact (text_blocks_pages_sorted (H:=failing_detector) sample_doc _ eq_refl).
Defined.

Lemma text_blocks_none_iff_witness :
  text_blocks (H:=failing_detector) (mk_page None :: sample_doc) = None.
Proof.
  apply (text_blocks_none_iff (H:=failing_detector)). exists (mk_page None). split; [left|]; done.
Defined.

End Fragments.
