(* ===== verification/Ranker.v ===== *)
(** * The font-level ranker (src/main.py 46-48)

    [font_sizes = sorted(list(set(b["font_size"] for b in text_blocks)),
    reverse=True)] and [size_to_level = {size: f"H{i+1}" for i, size in
    enumerate(font_sizes[:3])}].  [set] is modelled by stdpp's
    [remove_dups]; Python's iteration order of a set is unspecified, and
    [font_sizes_set_order] shows that the sorted list does not depend on
    it.  [sorted(..., reverse=True)] is a stable sort by [size_ge] (stdpp's
    [merge_sort]); the dict comprehension inserts in enumeration order
    into a [gmap].

    The abstract specification [level_spec] says which level a size gets
    without sorting: "H" followed by one plus the number of distinct
    larger sizes, when that number is below 3.  [size_to_level_refines]
    proves that the code computes it. *)

From stdpp Require Import base list sorting strings gmap pretty.
From Stdlib Require Import ZArith.
From S2P Require Import Prelude Fragments.

Module Ranker.
Import Fragments.

Section ranker.
Context {K : Type} `{Countable K} `{!FontSizeOrder K}.

(** [sorted(xs, reverse=True)]. *)
Definition sort_desc (xs : list K) : list K := merge_sort size_ge xs.

(** [sorted(list(set(b["font_size"] for b in text_blocks)), reverse=True)]. *)
Definition font_sizes (blocks : list (fragment K)) : list K :=
  sort_desc (remove_dups (map fr_font_size blocks)).

(** [f"H{i+1}"]. *)
Definition level_label (i : nat) : string := "H" +:+ pretty (S i).

(** The comprehension over [enumerate(sizes)], starting at index [i]. *)
Fixpoint enumerate_into (i : nat) (sizes : list K) (m : gmap K string) : gmap K string :=
  match sizes with
  | [] => m
  | s :: rest => enumerate_into (S i) rest (<[s := level_label i]> m)
  end.

Definition size_to_level (sizes : list K) : gmap K string :=
  enumerate_into 0 (take 3 sizes) ∅.

(** ** Abstract specification *)

(** The number of distinct sizes of [sizes] larger than [s]. *)
Definition rank (sizes : list K) (s : K) : nat :=
  length (filter (fun x => s ⊲ x) (remove_dups sizes)).

Definition level_spec (sizes : list K) (s : K) : option string :=
  if decide (s ∈ sizes) then
    if decide (rank sizes s < 3) then Some (level_label (rank sizes s)) else None
  else None.
End ranker.

(** Five fragments with four distinct sizes, for the witnesses. *)
Definition five_blocks : list (fragment Z) :=
  [ mk_fragment "Title" 24%Z "Arial-BoldMT" true "" 1;
    mk_fragment "Intro" 18%Z "Arial-BoldMT" true "" 1;
    mk_fragment "Scope" 14%Z "ArialMT" false "" 1;
    mk_fragment "Note" 12%Z "ArialMT" false "" 2;
    mk_fragment "Intro" 18%Z "Arial-BoldMT" true "" 2 ]%string.

(** ** Lemmas *)

Section ranker_lemmas.
Context {K : Type} `{Countable K} `{!FontSizeOrder K}.

Lemma sort_desc_sorted (xs : list K) : StronglySorted size_ge (sort_desc xs).
Proof. apply StronglySorted_merge_sort; apply _. Qed.

Lemma sort_desc_perm (xs : list K) : sort_desc xs ≡ₚ xs.
Proof. apply merge_sort_Permutation. Qed.

(** Two duplicate-free lists with the same elements sort to the same
    list. *)
Lemma sort_desc_canonical (l1 l2 : list K) :
  NoDup l1 -> NoDup l2 -> (forall x, x ∈ l1 <-> x ∈ l2) -> sort_desc l1 = sort_desc l2.
Proof.
  intros Hl1 Hl2 Hel. apply (StronglySorted_unique size_ge); [apply sort_desc_sorted..|].
  rewrite !sort_desc_perm. by apply NoDup_Permutation.
Qed.

Lemma font_sizes_nodup (blocks : list (fragment K)) : NoDup (font_sizes blocks).
Proof. unfold font_sizes. rewrite sort_desc_perm. apply NoDup_remove_dups. Qed.

Lemma elem_of_font_sizes (blocks : list (fragment K)) s :
  s ∈ font_sizes blocks <-> s ∈ map fr_font_size blocks.
Proof. unfold font_sizes. by rewrite sort_desc_perm, elem_of_remove_dups. Qed.

(** In a descending duplicate-free list, the index of a size is the
    number of elements larger than it. *)
Lemma sorted_index_rank (L : list K) j s :
  StronglySorted size_ge L -> NoDup L -> L !! j = Some s ->
  j = length (filter (fun x => s ⊲ x) L).
Proof.
  revert j. induction L as [|y L IH]; intros j HS Hnd Hj; [done|].
  apply StronglySorted_cons in HS as [Hy HS]. apply NoDup_cons in Hnd as [Hy' Hnd].
  rewrite filter_cons. destruct j as [|j]; simpl in Hj.
  - injection Hj as ->. rewrite size_lt_irrefl. simpl.
    rewrite filter_nil_forall; [done|].
    rewrite Forall_forall in Hy. intros x Hx Hsx.
    assert (s <> x) as Hne by set_solver.
    by rewrite (size_lt_asym _ _ (size_ge_lt _ _ (Hy x Hx) Hne)) in Hsx.
  - assert (Hs : s ∈ L) by (by eapply list_elem_of_lookup_2).
    rewrite Forall_forall in Hy. assert (y <> s) as Hne by set_solver.
    rewrite decide_True by exact (size_ge_lt _ _ (Hy s Hs) Hne). simpl.
    f_equal. by apply IH.
Qed.

(** The dictionary built over a duplicate-free [L] maps the element at
    index [j] to the label [i + j], and leaves other keys alone. *)
Lemma enumerate_into_lookup_notin i (L : list K) m s :
  s ∉ L -> enumerate_into i L m !! s = m !! s.
Proof.
  revert i m. induction L as [|y L IH]; intros i m Hs; [done|]. simpl.
  rewrite IH by set_solver. apply lookup_insert_ne. set_solver.
Qed.

Lemma enumerate_into_lookup_in i (L : list K) m j s :
  NoDup L -> L !! j = Some s -> enumerate_into i L m !! s = Some (level_label (i + j)).
Proof.
  revert i m j. induction L as [|y L IH]; intros i m j Hnd Hj; [done|].
  apply NoDup_cons in Hnd as [Hy Hnd]. destruct j as [|j]; simpl in Hj |- *.
  - injection Hj as ->. rewrite enumerate_into_lookup_notin by done.
    rewrite lookup_insert_eq. by rewrite Nat.add_0_r.
  - rewrite (IH (S i) _ j Hnd Hj). by rewrite Nat.add_succ_r.
Qed.

Lemma nodup_take n (L : list K) : NoDup L -> NoDup (take n L).
Proof. rewrite <- (take_drop n L) at 1. by intros [? _]%NoDup_app. Qed.

Lemma rank_font_sizes (blocks : list (fragment K)) s :
  rank (map fr_font_size blocks) s = length (filter (fun x => s ⊲ x) (font_sizes blocks)).
Proof. unfold rank, font_sizes. by rewrite sort_desc_perm. Qed.

(** The size at index [j] of the sorted list has rank [j]. *)
Lemma font_sizes_index_rank (blocks : list (fragment K)) j s :
  font_sizes blocks !! j = Some s -> j = rank (map fr_font_size blocks) s.
Proof.
  intros Hj. rewrite rank_font_sizes.
  apply sorted_index_rank; [apply sort_desc_sorted|apply font_sizes_nodup|done].
Qed.

(** The dictionary's lookups, by the abstract specification. *)
Lemma size_to_level_lookup (blocks : list (fragment K)) s :
  size_to_level (font_sizes blocks) !! s = level_spec (map fr_font_size blocks) s.
Proof.
  unfold size_to_level, level_spec. pose proof (font_sizes_nodup blocks) as Hnd.
  case_decide as Hs.
  - apply elem_of_font_sizes, list_elem_of_lookup_1 in Hs as [j Hj].
    pose proof (font_sizes_index_rank _ _ _ Hj) as <-. case_decide as Hj3.
    + change (level_label j) with (level_label (0 + j)).
      apply enumerate_into_lookup_in; [by apply nodup_take|].
      by rewrite lookup_take_lt.
    + rewrite enumerate_into_lookup_notin; [done|].
      intros (i & Hi & Hi3)%elem_of_take.
      pose proof (NoDup_lookup _ _ _ _ Hnd Hi Hj). lia.
  - rewrite enumerate_into_lookup_notin; [done|].
    intros (i & Hi & _)%elem_of_take. apply Hs, elem_of_font_sizes.
    by eapply list_elem_of_lookup_2.
Qed.

Lemma level_label_inj i j : level_label i = level_label j -> i = j.
Proof. unfold level_label. intros Hij%(inj (String.app "H")). by apply (inj pretty) in Hij as [=]. Qed.

Lemma level_label_small i : i < 3 -> level_label i ∈ ["H1"; "H2"; "H3"].
Proof. intros Hi. destruct i as [|[|[|i]]]; [vm_compute; set_solver..|lia]. Qed.

Lemma size_to_level_some (blocks : list (fragment K)) s lv :
  size_to_level (font_sizes blocks) !! s = Some lv ->
  s ∈ map fr_font_size blocks /\ rank (map fr_font_size blocks) s < 3 /\
  lv = level_label (rank (map fr_font_size blocks) s).
Proof.
  rewrite size_to_level_lookup. unfold level_spec.
  repeat case_decide; intros; simplify_eq; auto.
Qed.

(** A larger size has strictly fewer distinct sizes above it. *)
Lemma rank_lt (sizes : list K) s1 s2 :
  s2 ∈ sizes -> s1 ⊲ s2 -> rank sizes s2 < rank sizes s1.
Proof.
  intros Hs2 Hlt. unfold rank. apply (filter_length_lt_mono _ _ _ s2).
  - intros y Hy. eapply size_lt_trans; eauto.
  - by apply elem_of_remove_dups.
  - done.
  - by rewrite size_lt_irrefl.
Qed.

Lemma size_to_level_top_exists (blocks : list (fragment K)) :
  blocks <> [] ->
  exists s, s ∈ map fr_font_size blocks /\
    size_to_level (font_sizes blocks) !! s = Some "H1" /\
    forall x, x ∈ map fr_font_size blocks -> size_lt s x = false.
Proof.
  intros Hne. destruct (font_sizes blocks) as [|s L] eqn:HL.
  { destruct blocks as [|b bs]; [done|].
    assert (fr_font_size b ∈ font_sizes (b :: bs)) as Hb by (apply elem_of_font_sizes; left).
    rewrite HL in Hb. set_solver. }
  assert (Hs : font_sizes blocks !! 0 = Some s) by by rewrite HL.
  pose proof (font_sizes_index_rank _ _ _ Hs) as Hr.
  assert (Hin : s ∈ map fr_font_size blocks)
    by (apply elem_of_font_sizes; rewrite HL; left).
  exists s. split; [done|]. split.
  - rewrite <- HL, size_to_level_lookup. unfold level_spec.
    rewrite decide_True, <- Hr by (done || lia). reflexivity.
  - intros x Hx. destruct (size_lt s x) eqn:Hsx; [|done].
    pose proof (rank_lt _ _ _ Hx Hsx). lia.
Qed.

(** Fragments with the same sizes have the same [font_sizes]: the set
    and the sort forget order and repetition. *)
Lemma font_sizes_same (blocks blocks' : list (fragment K)) :
  (forall s, s ∈ map fr_font_size blocks <-> s ∈ map fr_font_size blocks') ->
  font_sizes blocks = font_sizes blocks'.
Proof.
  intros Hs. unfold font_sizes. apply sort_desc_canonical; [apply NoDup_remove_dups..|].
  intros s. by rewrite !elem_of_remove_dups.
Qed.

#[export] Instance font_sizes_perm : Proper ((≡ₚ) ==> (=)) (font_sizes (K:=K)).
Proof. intros b1 b2 Hp. apply font_sizes_same. intros s. by rewrite Hp. Qed.
End ranker_lemmas.

(** ** Theorems *)

Section ranker_theorems.
Context {K : Type} `{Countable K} `{!FontSizeOrder K}.

(** (C5) Refinement: the dictionary [size_to_level] built from the sorted
    distinct sizes gives each size exactly the level of the abstract
    specification: "H" and one plus its number of distinct larger
    sizes if that number is below 3, and no level otherwise (sizes
    outside the top three, and sizes that do not occur). *)
Theorem size_to_level_refines (blocks : list (fragment K)) s :
  size_to_level (font_sizes blocks) !! s = level_spec (map fr_font_size blocks) s.
Proof. apply size_to_level_lookup. Qed.

(** (C6) Only the three largest distinct sizes get a level; the levels
    are "H1", "H2" and "H3", and no two sizes share one. *)
Theorem size_to_level_levels (blocks : list (fragment K)) (s1 s2 : K) (lv : string) :
  size_to_level (font_sizes blocks) !! s1 = Some lv ->
  lv ∈ ["H1"; "H2"; "H3"] /\
  (size_to_level (font_sizes blocks) !! s2 = Some lv -> s1 = s2).
Proof.
  intros (Hs1 & Hr1 & ->)%size_to_level_some. split; [by apply level_label_small|].
  intros (Hs2 & Hr2 & Hl%level_label_inj)%size_to_level_some.
  destruct (decide (s1 = s2)) as [|Hne]; [done|].
  destruct (size_lt_total _ _ Hne) as [Hlt|Hlt];
    [pose proof (rank_lt _ _ _ Hs2 Hlt)|pose proof (rank_lt _ _ _ Hs1 Hlt)]; lia.
Qed.

(** (C7) Levels follow sizes: a strictly larger size gets a strictly
    smaller level index ("H1" before "H2" before "H3"). *)
Theorem size_to_level_monotone (blocks : list (fragment K)) s1 s2 i j :
  s1 ⊲ s2 ->
  size_to_level (font_sizes blocks) !! s1 = Some (level_label i) ->
  size_to_level (font_sizes blocks) !! s2 = Some (level_label j) ->
  j < i.
Proof.
  intros Hlt (_ & _ & ->%level_label_inj)%size_to_level_some
    (Hs2 & _ & ->%level_label_inj)%size_to_level_some.
  by apply rank_lt.
Qed.

(** (C8) A document with at least one heading-shaped fragment has an
    "H1" size, and it is the largest size present. *)
Theorem size_to_level_top (blocks : list (fragment K)) :
  blocks <> [] ->
  exists s, s ∈ map fr_font_size blocks /\
    size_to_level (font_sizes blocks) !! s = Some "H1" /\
    forall x, x ∈ map fr_font_size blocks -> size_lt s x = false.
Proof. apply size_to_level_top_exists. Qed.

(** (C13) The sorted size list does not depend on the order in which
    Python's [set] yields its elements: every duplicate-free listing of
    the document's sizes sorts to [font_sizes]. *)
Theorem font_sizes_set_order (blocks : list (fragment K)) (l : list K) :
  NoDup l -> (forall x, x ∈ l <-> x ∈ map fr_font_size blocks) ->
  sort_desc l = font_sizes blocks.
Proof.
  intros Hnd Hel. apply sort_desc_canonical; [done|apply NoDup_remove_dups|].
  intros x. by rewrite Hel, elem_of_remove_dups.
Qed.

(** (C27) The level map does not depend on the order of the fragments:
    shuffling them before [font_sizes] and [size_to_level] gives the same
    map (spec, testable properties). *)
Theorem size_to_level_shuffle (blocks blocks' : list (fragment K)) :
  blocks ≡ₚ blocks' -> size_to_level (font_sizes blocks) = size_to_level (font_sizes blocks').
Proof. intros Hp. by rewrite Hp. Qed.
End ranker_theorems.

Lemma size_to_level_levels_witness :
  size_to_level (font_sizes five_blocks) !! 18%Z = Some "H2"%string /\
  "H2"%string ∈ ["H1"; "H2"; "H3"]%string.
Proof.
  assert (H18 : size_to_level (font_sizes five_blocks) !! 18%Z = Some "H2"%string)
    by (vm_compute; reflexivity).
  split; [exact H18|]. exact (proj1 (size_to_level_levels five_blocks 18%Z 18%Z _ H18)).
Defined.

Lemma size_to_level_monotone_witness : 0 < 2.
Proof.
  apply (size_to_level_monotone five_blocks 14%Z 24%Z 2 0);
    vm_compute; reflexivity.
Defined.

Lemma size_to_level_top_witness :
  exists s, s ∈ map fr_font_size five_blocks /\
    size_to_level (font_sizes five_blocks) !! s = Some "H1"%string /\
    forall x, x ∈ map fr_font_size five_blocks -> size_lt s x = false.
Proof. apply size_to_level_top. discriminate. Defined.

Lemma size_to_level_shuffle_witness :
  five_blocks ≡ₚ reverse five_blocks /\
  size_to_level (font_sizes five_blocks) = size_to_level (font_sizes (reverse five_blocks)).
Proof.
  assert (five_blocks ≡ₚ reverse five_blocks) as Hp by (symmetry; apply reverse_Permutation).
  split; [exact Hp|]. exact (size_to_level_shuffle _ _ Hp).
Defined.

Lemma font_sizes_set_order_witness :
  sort_desc [12; 24; 14; 18]%Z = font_sizes five_blocks.
Proof.
  apply font_sizes_set_order.
  - apply (bool_decide_unpack _). vm_compute. reflexivity.
  - intros x. simpl. rewrite !elem_of_cons, elem_of_nil. tauto.
Defined.

End Ranker.
