(* ===== verification/Assembler.v ===== *)
(** * The outline assembler and the title (src/main.py 50-66)

    The loop of main.py 50-64 walks [text_blocks] with two pieces of
    state, the list [outline] and the set [seen] of (text, page) pairs;
    [assemble_step] is one iteration, with its two [continue]s (no level
    for the size, or [not level]; the identifier already seen) and its two
    updates ([seen.add], [outline.append]).  [build_outline] runs the
    loop with [foldl] from the empty state.  [select_title] is main.py 66.

    The reference [first_occurrences] has no state: it keeps a candidate
    entry when no earlier candidate has the same (text, page) key.
    [build_outline_refines] proves that the loop computes it, with the
    invariant that [seen] is the set of keys of all candidates so far. *)

From stdpp Require Import base list sorting strings gmap.
From Stdlib Require Import ZArith.
From S2P Require Import Prelude PyStr Fragments.

Module Assembler.
Import Fragments.

(** [{"level": level, "text": ..., "page": ...}] (main.py 60-64). *)
Record outline_entry := mk_entry {
  level : string;
  text : string;
  page : nat
}.

#[export] Instance outline_entry_eq_dec : EqDecision outline_entry.
Proof. solve_decision. Defined.

(** [identifier = (block["text"], block["page"])] (main.py 56). *)
Definition entry_key (e : outline_entry) : string * nat := (text e, page e).

Section assembler.
Context {K : Type} `{Countable K}.

(** One iteration of [for block in text_blocks] (main.py 52-64). *)
Definition assemble_step (size_to_level : gmap K string)
    (st : list outline_entry * gset (string * nat)) (block : fragment K)
    : list outline_entry * gset (string * nat) :=
  let '(outline, seen) := st in
  match size_to_level !! fr_font_size block with
  | None => st
  | Some lv =>
      if String.eqb lv "" then st
      else
        let identifier := (fr_text block, fr_page block) in
        if decide (identifier ∈ seen) then st
        else (outline ++ [mk_entry lv (fr_text block) (fr_page block)],
              {[identifier]} ∪ seen)
  end.

(** [outline = []; seen = set()] and the loop (main.py 50-64). *)
Definition build_outline (size_to_level : gmap K string) (blocks : list (fragment K))
    : list outline_entry :=
  (foldl (assemble_step size_to_level) ([], ∅) blocks).1.

(** ** Reference *)

(** The entry a fragment would contribute, were its key new. *)
Definition candidate (size_to_level : gmap K string) (block : fragment K)
    : option outline_entry :=
  match size_to_level !! fr_font_size block with
  | None => None
  | Some lv =>
      if String.eqb lv "" then None else Some (mk_entry lv (fr_text block) (fr_page block))
  end.

Definition candidates (size_to_level : gmap K string) (blocks : list (fragment K))
    : list outline_entry :=
  omap (candidate size_to_level) blocks.
End assembler.

(** Keep each entry whose key is not the key of an earlier one; [prev]
    holds the entries before [l]. *)
Fixpoint first_occ_from (prev l : list outline_entry) : list outline_entry :=
  match l with
  | [] => []
  | e :: l' =>
      (if decide (entry_key e ∈ (entry_key <$> prev)) then [] else [e])
      ++ first_occ_from (prev ++ [e]) l'
  end.

Definition first_occurrences (l : list outline_entry) : list outline_entry :=
  first_occ_from [] l.

(** [os.path.basename(pdf_path).replace(".pdf", "")] (main.py 66). *)
Definition fallback_title (pdf_path : string) : string :=
  PyStr.replace ".pdf" "" (PyStr.basename pdf_path).

(** [outline[0]["text"] if outline else ...] (main.py 66). *)
Definition select_title (outline : list outline_entry) (pdf_path : string) : string :=
  match outline with
  | e :: _ => text e
  | [] => fallback_title pdf_path
  end.

(** ** Lemmas on the reference *)

Lemma elem_of_keys_snoc k l e :
  k ∈ (entry_key <$> l ++ [e]) <-> k ∈ (entry_key <$> l) \/ k = entry_key e.
Proof. rewrite fmap_app, elem_of_app. simpl. by rewrite list_elem_of_singleton. Qed.

Lemma first_occ_from_snoc prev l e :
  first_occ_from prev (l ++ [e]) =
  first_occ_from prev l ++
    (if decide (entry_key e ∈ (entry_key <$> prev ++ l)) then [] else [e]).
Proof.
  revert prev. induction l as [|x l IH]; intros prev; simpl.
  - by rewrite !app_nil_r.
  - rewrite IH, <- app_assoc. by rewrite <- app_assoc.
Qed.

(** What the reference keeps: an entry is kept exactly where no earlier
    entry (of [prev] or of [l]) has its key. *)
Lemma elem_of_first_occ_from prev l e :
  e ∈ first_occ_from prev l <->
  exists l1 l2, l = l1 ++ e :: l2 /\ entry_key e ∉ (entry_key <$> prev ++ l1).
Proof.
  revert prev. induction l as [|x l IH]; intros prev; simpl.
  - split; [set_solver|]. intros (l1 & l2 & Hl & _). by destruct l1.
  - rewrite elem_of_app, IH. split.
    + intros [Hx|(l1 & l2 & -> & Hk)].
      * case_decide; [set_solver|]. apply list_elem_of_singleton in Hx as ->.
        exists [], l. by rewrite app_nil_r.
      * exists (x :: l1), l2. by rewrite <- app_assoc in Hk.
    + intros ([|y l1] & l2 & Hl & Hk); simpl in Hl; injection Hl as -> ->.
      * left. rewrite app_nil_r in Hk. rewrite decide_False by done. set_solver.
      * right. exists l1, l2. by rewrite <- app_assoc.
Qed.

Lemma first_occ_from_fresh prev l e :
  e ∈ first_occ_from prev l -> entry_key e ∉ (entry_key <$> prev).
Proof.
  intros (l1 & l2 & _ & Hk)%elem_of_first_occ_from Hp.
  apply Hk. rewrite fmap_app. apply elem_of_app. by left.
Qed.

Lemma first_occ_from_nodup prev l : NoDup ((entry_key <$> first_occ_from prev l)).
Proof.
  revert prev. induction l as [|x l IH]; intros prev; simpl; [constructor|].
  case_decide; simpl; [apply IH|]. constructor; [|apply IH].
  intros (e & He & Hin%first_occ_from_fresh)%list_elem_of_fmap.
  apply Hin, elem_of_keys_snoc. by right.
Qed.

(** Every key of [l] is a key of [prev] or of a kept entry. *)
Lemma first_occ_from_keys prev l k :
  k ∈ (entry_key <$> l) -> k ∈ (entry_key <$> prev) \/ k ∈ (entry_key <$> first_occ_from prev l).
Proof.
  revert prev. induction l as [|x l IH]; intros prev Hk; simpl in Hk |- *; [set_solver|].
  apply elem_of_cons in Hk as [->|Hk].
  - case_decide; [by left|]. right. simpl. by left.
  - destruct (IH (prev ++ [x]) Hk) as [[Hp| ->]%elem_of_keys_snoc|Hf].
    + by left.
    + case_decide; [by left|]. right. simpl. by left.
    + right. case_decide; simpl; [done|]. by right.
Qed.

Lemma first_occ_from_sublist prev l : first_occ_from prev l `sublist_of` l.
Proof.
  revert prev. induction l as [|x l IH]; intros prev; simpl; [constructor|].
  case_decide; simpl; constructor; apply IH.
Qed.

(** ** The loop invariant *)

Section assembler_lemmas.
Context {K : Type} `{Countable K}.

(** After any prefix of the fragments, the loop's [outline] is the
    reference on the candidates so far, and [seen] is the set of their
    keys. *)
Lemma build_outline_state (lv : gmap K string) (blocks : list (fragment K)) :
  foldl (assemble_step lv) ([], ∅) blocks =
  (first_occurrences (candidates lv blocks),
   list_to_set ((entry_key <$> candidates lv blocks))).
Proof.
  induction blocks as [|b bs IH] using rev_ind; [done|].
  rewrite foldl_app_snoc, IH. unfold candidates. rewrite omap_app. simpl.
  unfold assemble_step, candidate. destruct (lv !! fr_font_size b) as [l|]; simpl;
    [|by rewrite !app_nil_r].
  destruct (String.eqb l ""); simpl; [by rewrite !app_nil_r|].
  unfold first_occurrences. rewrite first_occ_from_snoc. simpl.
  set (e := mk_entry l (fr_text b) (fr_page b)).
  change (fr_text b, fr_page b) with (entry_key e).
  do 2 case_decide; rewrite elem_of_list_to_set in *; try tauto;
    f_equal; try (by rewrite ?app_nil_r); apply set_eq; intros k;
    rewrite ?elem_of_union, ?elem_of_singleton, !elem_of_list_to_set, elem_of_keys_snoc;
    naive_solver.
Qed.

Lemma build_outline_eq (lv : gmap K string) (blocks : list (fragment K)) :
  build_outline lv blocks = first_occurrences (candidates lv blocks).
Proof. unfold build_outline. by rewrite build_outline_state. Qed.

Lemma elem_of_candidates (lv : gmap K string) (blocks : list (fragment K)) e :
  e ∈ candidates lv blocks <-> exists b, b ∈ blocks /\ candidate lv b = Some e.
Proof. unfold candidates. rewrite list_elem_of_omap. naive_solver. Qed.

Lemma candidate_some (lv : gmap K string) b e :
  candidate lv b = Some e ->
  lv !! fr_font_size b = Some (level e) /\ level e <> ""%string /\
  text e = fr_text b /\ page e = fr_page b.
Proof.
  unfold candidate. destruct (lv !! fr_font_size b) as [l|]; [|done].
  destruct (String.eqb_spec l ""); [done|]. intros [= <-]. simpl. auto.
Qed.

Lemma build_outline_sublist_of (lv : gmap K string) (blocks : list (fragment K)) :
  build_outline lv blocks `sublist_of` candidates lv blocks.
Proof. rewrite build_outline_eq. apply first_occ_from_sublist. Qed.

(** Entries whose keys were all met before change nothing. *)
Lemma first_occ_from_app_seen prev l l' :
  (forall e, e ∈ l' -> entry_key e ∈ (entry_key <$> prev ++ l)) ->
  first_occ_from prev (l ++ l') = first_occ_from prev l.
Proof.
  induction l' as [|e l' IH] using rev_ind; intros Hseen; [by rewrite app_nil_r|].
  rewrite app_assoc, first_occ_from_snoc, IH by (intros x Hx; apply Hseen; set_solver).
  rewrite decide_True; [apply app_nil_r|].
  pose proof (Hseen e ltac:(set_solver)) as He. rewrite !fmap_app, !elem_of_app in *. tauto.
Qed.

(** Assembling a sequence followed by itself gives the sequence's outline. *)
Lemma build_outline_twice (lv : gmap K string) (blocks : list (fragment K)) :
  build_outline lv (blocks ++ blocks) = build_outline lv blocks.
Proof.
  rewrite !build_outline_eq. unfold candidates, first_occurrences. rewrite omap_app.
  apply first_occ_from_app_seen. intros e He. by apply list_elem_of_fmap_2.
Qed.
End assembler_lemmas.

Lemma first_occ_from_incl prev l e : e ∈ first_occ_from prev l -> e ∈ l.
Proof. intros (l1 & l2 & -> & _)%elem_of_first_occ_from. set_solver. Qed.

(** A level map and fragments for the witnesses. *)
Definition sample_levels : gmap Z string := {[ 18%Z := "H1"; 14%Z := "H2" ]}.

Definition sample_blocks : list (fragment Z) :=
  [ mk_fragment "Intro" 18%Z "Arial-BoldMT" true "" 1;
    mk_fragment "Body" 12%Z "ArialMT" false "" 1;
    mk_fragment "Intro" 18%Z "Arial-BoldMT" true "" 2;
    mk_fragment "Background" 14%Z "ArialMT" false "" 2 ]%string.

Section assembler_theorems.
Context {K : Type} `{Countable K}.

(** (C1) Refinement: the stateful loop of main.py 50-64 computes the
    stateless reference: the candidates (fragments whose size has a
    non-empty level) with every entry dropped whose (text, page) key
    is the key of an earlier candidate. *)
Theorem build_outline_refines (lv : gmap K string) (blocks : list (fragment K)) :
  build_outline lv blocks = first_occurrences (candidates lv blocks).
Proof. apply build_outline_eq. Qed.

(** (C2) First occurrence wins: an entry is in the outline exactly when
    it is a candidate none of whose predecessors has its (text, page)
    key; a later fragment with the same key is dropped even when its
    size, font or level differ. *)
Theorem build_outline_first_wins (lv : gmap K string) (blocks : list (fragment K)) e :
  e ∈ build_outline lv blocks <->
  exists l1 l2, candidates lv blocks = l1 ++ e :: l2 /\ entry_key e ∉ (entry_key <$> l1).
Proof. rewrite build_outline_eq. apply elem_of_first_occ_from. Qed.

(** (C14) No two outline entries share a (text, page) pair. *)
Theorem build_outline_keys_nodup (lv : gmap K string) (blocks : list (fragment K)) :
  NoDup (entry_key <$> build_outline lv blocks).
Proof. rewrite build_outline_eq. apply first_occ_from_nodup. Qed.

(** (C15) No heading is lost: every fragment whose size has a level
    has its (text, page) pair in the outline. *)
Theorem build_outline_complete (lv : gmap K string) (blocks : list (fragment K)) b lvl :
  b ∈ blocks -> lv !! fr_font_size b = Some lvl -> lvl <> ""%string ->
  (fr_text b, fr_page b) ∈ (entry_key <$> build_outline lv blocks).
Proof.
  intros Hb Hlv Hne. rewrite build_outline_eq.
  assert (Hc : candidate lv b = Some (mk_entry lvl (fr_text b) (fr_page b))).
  { unfold candidate. rewrite Hlv. by destruct (String.eqb_spec lvl ""). }
  assert (Hk : (fr_text b, fr_page b) ∈ (entry_key <$> candidates lv blocks)).
  { change (fr_text b, fr_page b) with (entry_key (mk_entry lvl (fr_text b) (fr_page b))).
    apply list_elem_of_fmap_2, elem_of_candidates. eauto. }
  destruct (first_occ_from_keys [] _ _ Hk) as [Hnil|]; [|done].
  by apply not_elem_of_nil in Hnil.
Qed.

(** (C16) Deduplication: appending a fragment whose (text, page) pair is
    already in the outline leaves the outline unchanged. *)
Theorem build_outline_dup_append (lv : gmap K string) (bs : list (fragment K)) b :
  (fr_text b, fr_page b) ∈ (entry_key <$> build_outline lv bs) ->
  build_outline lv (bs ++ [b]) = build_outline lv bs.
Proof.
  unfold build_outline. rewrite foldl_app_snoc, build_outline_state. simpl.
  intros (e & He & Hin%first_occ_from_incl)%list_elem_of_fmap.
  destruct (lv !! fr_font_size b); [|done]. destruct (String.eqb _ _); [done|].
  rewrite decide_True; [done|]. rewrite elem_of_list_to_set, He.
  by apply list_elem_of_fmap_2.
Qed.

(** (C26) A level can vanish from the outline: no entry has the level
    [l] exactly when every fragment whose size maps to [l] comes after a
    fragment that has a level and the same (text, page) pair (the pair
    is then already taken).  For [l = "H1"] this is an outline without
    H1 although the document has text of the largest size. *)
Theorem build_outline_level_absent (lv : gmap K string) (blocks : list (fragment K)) (l : string) :
  l <> ""%string ->
  (forall e, e ∈ build_outline lv blocks -> level e <> l) <->
  (forall pre b post, blocks = pre ++ b :: post -> lv !! fr_font_size b = Some l ->
     exists b', b' ∈ pre /\ is_Some (candidate lv b') /\
       (fr_text b', fr_page b') = (fr_text b, fr_page b)).
Proof.
  intros Hl. split.
  - intros Habs pre b post -> Hb.
    destruct (decide (Exists (fun b' => is_Some (candidate lv b') /\
                        (fr_text b', fr_page b') = (fr_text b, fr_page b)) pre))
      as [(b' & ? & ?)%Exists_exists|Hno]; [by exists b'|]. exfalso.
    apply (Habs (mk_entry l (fr_text b) (fr_page b))); [|done].
    rewrite build_outline_eq. unfold first_occurrences. rewrite elem_of_first_occ_from.
    exists (candidates lv pre), (candidates lv post). split.
    + assert (candidate lv b = Some (mk_entry l (fr_text b) (fr_page b))) as Hc
        by (unfold candidate; rewrite Hb; by destruct (String.eqb_spec l "")).
      unfold candidates. by rewrite omap_app, omap_cons, Hc.
    + simpl. intros (e' & Hke & He')%list_elem_of_fmap. apply Hno, Exists_exists.
      apply elem_of_candidates in He' as (b' & Hb' & Hc). exists b'. split; [done|].
      split; [rewrite Hc; by eexists|].
      apply candidate_some in Hc as (_ & _ & Ht & Hp).
      unfold entry_key in Hke. simpl in Hke. congruence.
  - intros Hall e He Hle. rewrite build_outline_eq in He. unfold first_occurrences in He.
    rewrite elem_of_first_occ_from in He.
    destruct He as (l1 & l2 & Hcs & Hnew).
    destruct (omap_split _ _ _ _ _ Hcs) as (pre & x & post & -> & Hx & Hpre).
    pose proof (candidate_some _ _ _ Hx) as (Hsz & _ & Ht & Hp).
    destruct (Hall pre x post eq_refl) as (b' & Hb' & [e' He'] & Hk); [by rewrite Hsz, Hle|].
    apply Hnew. simpl. apply list_elem_of_fmap. exists e'. split.
    + apply candidate_some in He' as (_ & _ & Ht' & Hp'). unfold entry_key. congruence.
    + rewrite <- Hpre. apply elem_of_candidates. eauto.
Qed.

(** (C17) The outline keeps the candidates' order: it is a sublist of
    them, so entries appear in the order their fragments were met. *)
Theorem build_outline_sublist (lv : gmap K string) (blocks : list (fragment K)) :
  build_outline lv blocks `sublist_of` candidates lv blocks.
Proof. apply build_outline_sublist_of. Qed.
End assembler_theorems.

(** (C25) The fallback title removes every ".pdf" of the file name, not
    only the extension ([str.replace] replaces all occurrences): for
    stems [u] and [v] without a dot or a slash, [u.pdf] gives [u], as the
    spec's "extension stripped" says, but [u.pdf] followed by [v.pdf]
    gives [u ++ v]. *)
Theorem fallback_title_every_pdf (d u v : string) :
  PyStr.contains "." u = false -> PyStr.contains "/" u = false ->
  PyStr.contains "." v = false -> PyStr.contains "/" v = false ->
  fallback_title (PyStr.join d (u ++ ".pdf")) = u /\
  fallback_title (PyStr.join d (u ++ ".pdf" ++ v ++ ".pdf")) = (u ++ v)%string.
Proof.
  intros Hu Hu' Hv Hv'. unfold fallback_title.
  rewrite !PyStr.basename_join by (rewrite ?PyStr.contains_char_app, Hu', ?Hv'; reflexivity).
  rewrite !PyStr.replace_pdf_stem, PyStr.replace_pdf_match, PyStr.replace_pdf_stem by done.
  change (PyStr.replace ".pdf" "" ".pdf") with "".
  by rewrite string_app_nil_l, !string_app_nil_r.
Qed.

(** The spec's example of a name with an inner ".pdf". *)
Example fallback_title_inner_pdf : fallback_title "/app/input/my.pdfs.pdf" = "mys"%string.
Proof. vm_compute. reflexivity. Qed.

(** For a file of the input directory (a name without '/'), the
    fallback title of the path the batch driver builds is the file name
    with its ".pdf" occurrences removed, whatever the directory is. *)
Theorem fallback_title_join (input_dir filename : string) :
  PyStr.contains "/" filename = false ->
  fallback_title (PyStr.join input_dir filename) = PyStr.replace ".pdf" "" filename.
Proof. intros Hf. unfold fallback_title. by rewrite PyStr.basename_join. Qed.

Lemma fallback_title_join_witness :
  PyStr.contains "/" "notes.pdf" = false /\
  fallback_title (PyStr.join "/app/input/" "notes.pdf") = "notes"%string.
Proof.
  split; [reflexivity|].
  rewrite (fallback_title_join "/app/input/" "notes.pdf") by reflexivity. reflexivity.
Defined.

Lemma fallback_title_every_pdf_witness :
  PyStr.contains "." "my" = false /\ PyStr.contains "/" "my" = false /\
  PyStr.contains "." "s" = false /\ PyStr.contains "/" "s" = false /\
  fallback_title (PyStr.join "/app/input" ("my" ++ ".pdf")) = "my" /\
  fallback_title (PyStr.join "/app/input" ("my" ++ ".pdf" ++ "s" ++ ".pdf")) = ("my" ++ "s")%string.
Proof.
  do 4 (split; [reflexivity|]).
  apply (fallback_title_every_pdf "/app/input" "my" "s"); reflexivity.
Defined.

Lemma build_outline_level_absent_witness :
  "H3"%string <> ""%string /\
  ((forall e, e ∈ build_outline sample_levels sample_blocks -> level e <> "H3"%string) <->
   (forall pre b post, sample_blocks = pre ++ b :: post ->
      sample_levels !! fr_font_size b = Some "H3"%string ->
      exists b', b' ∈ pre /\ is_Some (candidate sample_levels b') /\
        (fr_text b', fr_page b') = (fr_text b, fr_page b))).
Proof. split; [done|]. apply build_outline_level_absent. done. Defined.

Lemma build_outline_complete_witness :
  ("Background"%string, 2) ∈ (entry_key <$> build_outline sample_levels sample_blocks).
Proof.
  apply (build_outline_complete sample_levels sample_blocks
           (mk_fragment "Background" 14%Z "ArialMT" false "" 2) "H2")%string.
  - vm_compute. right. right. right. left.
  - reflexivity.
  - discriminate.
Defined.

Lemma build_outline_dup_append_witness :
  build_outline sample_levels (sample_blocks ++ [mk_fragment "Intro" 18%Z "Bold" true "" 2]%string)
  = build_outline sample_levels sample_blocks.
Proof.
  apply build_outline_dup_append. vm_compute. right. left.
Defined.

End Assembler.
