(* ===== verification/Extract.v ===== *)
(** * The whole-document function [extract_headings] (src/main.py 14-77)

    [extract_headings] opens the file ([PdfReader]), walks its spans
    ([Fragments.text_blocks]), ranks the sizes ([Ranker]), assembles the
    outline and the title ([Assembler]), and returns the record
    {"title", "outline"}.  Every exception inside the [try] block
    (main.py 15-70) leads to {"title": "Error", "outline": []}
    ([error_result]); in the model the two sources of failure are
    [fitz_open] and a page whose [get_text] raises.  The [logging.error]
    call of the [except] branch has no effect on the result and is not
    modelled. *)

From stdpp Require Import base list sorting strings gmap.
From Stdlib Require Import ZArith.
From S2P Require Import Prelude PyStr Filter Fragments Ranker Assembler.

Module Extract.
Import Fragments Ranker Assembler.

(** [{"title": title, "outline": outline}] (main.py 67-70). *)
Record outline_result := mk_result {
  title : string;
  outline : list outline_entry
}.

(** [{"title": "Error", "outline": []}] (main.py 74-77). *)
Definition error_result : outline_result := mk_result "Error" [].

Section extract.
Context {K : Type} `{Countable K} `{!FontSizeOrder K}.

(** main.py 46-70, once [text_blocks] is built. *)
Definition outline_of_blocks (blocks : list (fragment K)) (pdf_path : string)
    : outline_result :=
  let sizes := font_sizes blocks in
  let lv := size_to_level sizes in
  let outline := build_outline lv blocks in
  mk_result (select_title outline pdf_path) outline.

(** [extract_headings(pdf_path)] (main.py 14-77). *)
Definition extract_headings {RD : PdfReader K} {LD : LangDetector} (pdf_path : string)
    : outline_result :=
  match fitz_open pdf_path with
  | None => error_result
  | Some doc =>
      match text_blocks doc with
      | None => error_result
      | Some blocks => outline_of_blocks blocks pdf_path
      end
  end.
End extract.


(** A reader that opens every file as one page with the given spans. *)
Definition one_page_reader (spans : list (span Z)) : PdfReader Z :=
  {| fitz_open _ := Some [mk_page (Some [mk_block (Some [mk_line spans])])] |}.

(** The fragments of [sample_doc]. *)
Definition sample_fragments : list (fragment Z) :=
  [ mk_fragment "Intro" 18%Z "Arial-BoldMT" true "" 1;
    mk_fragment "Intro" 18%Z "Arial-BoldMT" true "" 2;
    mk_fragment "Background" 14%Z "ArialMT" false "" 2 ]%string.

(** ** Lemmas *)

Lemma first_occurrences_nil l : first_occurrences l = [] <-> l = [].
Proof.
  split; [|by intros ->]. destruct l as [|e l]; [done|].
  unfold first_occurrences. simpl. discriminate.
Qed.

Section extract_lemmas.
Context {K : Type} `{Countable K} `{!FontSizeOrder K}.

Lemma candidates_forget_lang (lv : gmap K string) (blocks : list (fragment K)) :
  candidates lv (map forget_lang blocks) = candidates lv blocks.
Proof.
  unfold candidates. induction blocks as [|b bs IH]; [done|]. simpl.
  change (candidate lv (forget_lang b)) with (candidate lv b).
  destruct (candidate lv b); [f_equal|]; exact IH.
Qed.

Lemma font_sizes_forget_lang (blocks : list (fragment K)) :
  font_sizes (map forget_lang blocks) = font_sizes blocks.
Proof. unfold font_sizes. by rewrite map_map. Qed.

(** The result depends on the fragments only through their text, size
    and page. *)
Lemma outline_of_blocks_forget_lang (blocks : list (fragment K)) p :
  outline_of_blocks (map forget_lang blocks) p = outline_of_blocks blocks p.
Proof.
  unfold outline_of_blocks. rewrite font_sizes_forget_lang, !build_outline_eq.
  by rewrite candidates_forget_lang.
Qed.

(** A document with a heading-shaped fragment has a non-empty outline:
    a fragment of the largest size is a candidate, and the first
    candidate is always kept. *)
Lemma build_outline_nonempty (blocks : list (fragment K)) :
  blocks <> [] -> build_outline (size_to_level (font_sizes blocks)) blocks <> [].
Proof.
  intros Hne. destruct (size_to_level_top_exists blocks Hne) as (s & Hs & Hlv & _).
  apply list_elem_of_In, in_map_iff in Hs as (b & <- & Hb%list_elem_of_In).
  rewrite build_outline_eq, first_occurrences_nil. intros Hnil.
  assert (Hc : mk_entry "H1" (fr_text b) (fr_page b) ∈
               candidates (size_to_level (font_sizes blocks)) blocks).
  { apply elem_of_candidates. exists b. split; [done|]. unfold candidate. by rewrite Hlv. }
  rewrite Hnil in Hc. set_solver.
Qed.

(** What an entry of the outline is: a fragment's text and page, with
    the level of the abstract specification for its size. *)
Lemma build_outline_entry (blocks : list (fragment K)) e :
  e ∈ build_outline (size_to_level (font_sizes blocks)) blocks ->
  exists b, b ∈ blocks /\ text e = fr_text b /\ page e = fr_page b /\
    rank (map fr_font_size blocks) (fr_font_size b) < 3 /\
    level e = level_label (rank (map fr_font_size blocks) (fr_font_size b)).
Proof.
  rewrite build_outline_eq. intros (b & Hb & Hc)%first_occ_from_incl%elem_of_candidates.
  destruct (candidate_some _ _ _ Hc) as (Hlv & _ & Ht & Hp).
  destruct (size_to_level_some _ _ _ Hlv) as (_ & Hr & Hl). eauto 10.
Qed.

Lemma outline_pages_sorted (lv : gmap K string) (blocks : list (fragment K)) :
  StronglySorted le (map fr_page blocks) ->
  StronglySorted (fun e1 e2 => page e1 <= page e2) (build_outline lv blocks).
Proof.
  intros HS. eapply StronglySorted_sublist; [apply build_outline_sublist_of|].
  apply (StronglySorted_omap (fun b1 b2 => fr_page b1 <= fr_page b2)).
  - intros x y a c (_ & _ & _ & ->)%candidate_some (_ & _ & _ & ->)%candidate_some. done.
  - by apply StronglySorted_map_iff.
Qed.
End extract_lemmas.

(** A reader that knows one file, [/app/input/report.pdf], holding the
    spec's sample document, and a reader for documents without headings. *)
Definition sample_reader : PdfReader Z :=
  {| fitz_open p := if String.eqb p "/app/input/report.pdf" then Some sample_doc else None |}.

Definition blank_reader : PdfReader Z :=
  {| fitz_open _ := Some [mk_page (Some [mk_block (Some [mk_line [mk_span "   " 10%Z "ArialMT"]])])] |}.

(** ** Theorems *)

Section extract_theorems.
Context {K : Type} `{Countable K} `{!FontSizeOrder K} {RD : PdfReader K} {LD : LangDetector}.

(** (C18) Each entry of a successful result comes from a heading-shaped
    fragment of the document: same text and page, and the level the
    abstract ranking specification gives its size ("H" and one plus the
    number of distinct larger sizes, which is below 3). *)
Theorem extract_headings_entries p doc blocks e :
  fitz_open p = Some doc -> text_blocks doc = Some blocks ->
  e ∈ outline (extract_headings p) ->
  exists b, b ∈ blocks /\ Filter.is_heading (text e) = true /\
    text e = fr_text b /\ page e = fr_page b /\
    rank (map fr_font_size blocks) (fr_font_size b) < 3 /\
    level e = level_label (rank (map fr_font_size blocks) (fr_font_size b)).
Proof.
  unfold extract_headings. intros Ho Ht. rewrite Ho, Ht. simpl.
  intros (b & Hb & Htx & Hpg & Hr & Hl)%build_outline_entry.
  exists b. repeat split; try done.
  destruct (collect_from_in _ _ _ _ Ht (proj1 (list_elem_of_In _ _) Hb)) as [[sp Hsp] _].
  rewrite Htx. by apply span_fragment_some in Hsp as (_ & _ & ? & _).
Qed.

(** (C19) The title falls back to the file name, with an empty outline,
    exactly when the document has no heading-shaped span at all. *)
Theorem extract_headings_empty_iff p doc blocks :
  fitz_open p = Some doc -> text_blocks doc = Some blocks ->
  extract_headings p = mk_result (fallback_title p) [] <-> blocks = [].
Proof.
  unfold extract_headings. intros Ho Ht. rewrite Ho, Ht. unfold outline_of_blocks.
  split; [|by intros ->].
  intros [= _ Hnil]. destruct (decide (blocks = [])) as [|Hne]; [done|].
  by apply build_outline_nonempty in Hne.
Qed.

(** (C20) A file that cannot be opened, or a page that cannot be read,
    gives the fixed record {title: "Error", outline: []}. *)
Theorem extract_headings_error p :
  (fitz_open p = None \/
   exists doc pg, fitz_open p = Some doc /\ In pg doc /\ page_blocks pg = None) ->
  extract_headings p = error_result.
Proof.
  unfold extract_headings. intros [->|(doc & pg & Ho & Hpg)]; [done|]. rewrite Ho.
  by rewrite (proj2 (collect_none_iff doc) (ex_intro _ pg Hpg)).
Qed.

(** (C21) Outline entries appear in page order, and every page number is
    a page of the document. *)
Theorem extract_headings_pages p doc blocks :
  fitz_open p = Some doc -> text_blocks doc = Some blocks ->
  StronglySorted (fun e1 e2 => page e1 <= page e2) (outline (extract_headings p)) /\
  Forall (fun e => 1 <= page e <= List.length doc) (outline (extract_headings p)).
Proof.
  unfold extract_headings. intros Ho Ht. rewrite Ho, Ht. simpl. split.
  - apply outline_pages_sorted. by eapply collect_from_sorted.
  - apply Forall_forall. intros e (b & Hb & _ & -> & _)%build_outline_entry.
    destruct (collect_from_in _ _ _ _ Ht (proj1 (list_elem_of_In _ _) Hb)) as [_ ?]; lia.
Qed.

(** (C23) Dedup idempotence (spec, testable properties): assembling a
    fragment sequence followed by itself gives the same result as the
    sequence alone (same level map, outline and title). *)
Theorem outline_of_blocks_twice (blocks : list (fragment K)) p :
  outline_of_blocks (blocks ++ blocks) p = outline_of_blocks blocks p.
Proof.
  unfold outline_of_blocks.
  rewrite (font_sizes_same (blocks ++ blocks) blocks), build_outline_twice; [done|].
  intros s. rewrite map_app, elem_of_app. tauto.
Qed.

(** (C24) The error record is ambiguous: [extract_headings] returns
    {title: "Error", outline: []} exactly when the file cannot be opened,
    a page cannot be read, or the document has no heading-shaped span
    and its fallback title is "Error" (a heading-less [Error.pdf]). *)
Theorem extract_headings_error_iff p :
  extract_headings p = error_result <->
  fitz_open p = None \/
  exists doc, fitz_open p = Some doc /\
    (text_blocks doc = None \/ (text_blocks doc = Some [] /\ fallback_title p = "Error"%string)).
Proof.
  unfold extract_headings. destruct (fitz_open p) as [doc|]; [|naive_solver].
  destruct text_blocks as [blocks|] eqn:Ht; [|naive_solver].
  unfold outline_of_blocks, error_result. split.
  - intros [= Htitle Hnil]. right. exists doc. split; [done|]. right.
    destruct (decide (blocks = [])) as [->|Hne]; [|by apply build_outline_nonempty in Hne].
    split; [done|]. rewrite <- Htitle. reflexivity.
  - intros [|(doc' & [= <-] & [Hn|[Hs Hf]])]; [done|congruence|].
    rewrite Ht in Hs. injection Hs as ->. simpl. by rewrite Hf.
Qed.
End extract_theorems.

(** (C35) Bounds of every entry written: its level is H1, H2 or H3, its
    text has between 1 and 99 characters, and its page number is at
    least 1, whether or not the document could be read. *)
Theorem extract_headings_bounds {K} `{Countable K} `{!FontSizeOrder K}
    {RD : PdfReader K} {LD : LangDetector} p e :
  e ∈ outline (extract_headings p) ->
  level e ∈ ["H1"; "H2"; "H3"] /\ 1 <= String.length (text e) < 100 /\ 1 <= page e.
Proof.
  unfold extract_headings. destruct (fitz_open p) as [doc|]; [|simpl; set_solver].
  destruct (text_blocks doc) as [blocks|] eqn:Ht; [|simpl; set_solver]. simpl.
  intros (b & Hb & Htx & Hpg & Hr & Hl)%build_outline_entry.
  destruct (collect_from_in _ _ _ _ Ht (proj1 (list_elem_of_In _ _) Hb)) as [[sp Hsp] Hpage].
  apply span_fragment_some in Hsp as (_ & _ & Hh & _).
  rewrite <- Htx in Hh. apply Filter.is_heading_true_iff in Hh as (Hne & Hlen & _).
  split; [rewrite Hl; by apply level_label_small|]. split; [|lia].
  split; [|done]. destruct (text e); [done|simpl; lia].
Qed.

(** (C22) Language detection, failing or not, never changes the result. *)
Theorem extract_headings_lang_independent {K} `{Countable K} `{!FontSizeOrder K}
    (RD : PdfReader K) (d1 d2 : LangDetector) p :
  extract_headings (LD:=d1) p = extract_headings (LD:=d2) p.
Proof.
  unfold extract_headings. destruct fitz_open as [doc|]; [|done].
  pose proof (text_blocks_forget_lang d1 d2 doc) as Hf.
  destruct (text_blocks (H:=d1) doc) as [b1|], (text_blocks (H:=d2) doc) as [b2|];
    simpl in Hf; try discriminate; [|done].
  injection Hf as Hf.
  by rewrite <- (outline_of_blocks_forget_lang b1), Hf, outline_of_blocks_forget_lang.
Qed.

(** The scenario of the spec: "Intro" (18pt) on pages 1 and 2,
    "This is body text." (12pt, filtered), "Background" (14pt). *)
Example extract_headings_sample :
  extract_headings (RD:=sample_reader) (LD:=failing_detector) "/app/input/report.pdf" =
  mk_result "Intro" [ mk_entry "H1" "Intro" 1; mk_entry "H1" "Intro" 2;
                      mk_entry "H2" "Background" 2 ].
Proof. vm_compute. reflexivity. Qed.

(** A file named [Error.pdf] without headings yields exactly the record
    of a failed document (an instance of [extract_headings_error_iff]). *)
Example extract_headings_error_lookalike :
  extract_headings (RD:=blank_reader) (LD:=failing_detector) "/app/input/Error.pdf" =
  error_result.
Proof. vm_compute. reflexivity. Qed.

(** An outline without "H1" (an instance of
    [Assembler.build_outline_level_absent]): the 18pt "Intro" is dropped as
    a duplicate of the 12pt "Intro" met before it on the same page. *)
Example extract_headings_no_h1 :
  extract_headings (RD:=one_page_reader [mk_span "Intro" 12%Z "ArialMT";
                                         mk_span "Intro" 18%Z "Arial-BoldMT"])
                   (LD:=failing_detector) "/app/input/a.pdf" =
  mk_result "Intro" [mk_entry "H2" "Intro" 1].
Proof. vm_compute. reflexivity. Qed.

(** With four distinct heading sizes, the fragments of the smallest are
    left out of the outline, though they pass the shape filter. *)
Example extract_headings_top3_only :
  extract_headings (RD:=one_page_reader [mk_span "A" 24%Z "F"; mk_span "B" 18%Z "F";
                                         mk_span "C" 14%Z "F"; mk_span "D" 12%Z "F"])
                   (LD:=failing_detector) "/app/input/a.pdf" =
  mk_result "A" [mk_entry "H1" "A" 1; mk_entry "H2" "B" 1; mk_entry "H3" "C" 1].
Proof. vm_compute. reflexivity. Qed.

(** ** Witnesses *)

Lemma extract_headings_entries_witness :
  exists b, b ∈ sample_fragments /\ Filter.is_heading "Background" = true /\
    "Background" = fr_text b /\ 2 = fr_page b /\
    rank (map fr_font_size sample_fragments) (fr_font_size b) < 3 /\
    "H2" = level_label (rank (map fr_font_size sample_fragments) (fr_font_size b)).
Proof.
  apply (extract_headings_entries (RD:=sample_reader) (LD:=failing_detector)
           "/app/input/report.pdf" sample_doc sample_fragments (mk_entry "H2" "Background" 2)).
  - reflexivity.
  - vm_compute. reflexivity.
  - apply (bool_decide_unpack _). vm_compute. reflexivity.
Defined.

Lemma extract_headings_empty_iff_witness :
  extract_headings (RD:=blank_reader) (LD:=failing_detector) "/app/input/notes.pdf" =
  mk_result (fallback_title "/app/input/notes.pdf") [].
Proof.
  apply (extract_headings_empty_iff (RD:=blank_reader) (LD:=failing_detector)
           "/app/input/notes.pdf" [mk_page (Some [mk_block (Some [mk_line [mk_span "   " 10%Z "ArialMT"]])])] []);
    reflexivity.
Defined.

Lemma extract_headings_error_witness :
  extract_headings (RD:=sample_reader) (LD:=failing_detector) "/app/input/missing.pdf" = error_result.
Proof. apply extract_headings_error. left. reflexivity. Defined.

Lemma extract_headings_pages_witness :
  StronglySorted (fun e1 e2 => page e1 <= page e2)
    (outline (extract_headings (RD:=sample_reader) (LD:=failing_detector) "/app/input/report.pdf")) /\
  Forall (fun e => 1 <= page e <= List.length sample_doc)
    (outline (extract_headings (RD:=sample_reader) (LD:=failing_detector) "/app/input/report.pdf")).
Proof.
  apply (extract_headings_pages (RD:=sample_reader) (LD:=failing_detector)
           "/app/input/report.pdf" sample_doc sample_fragments); vm_compute; reflexivity.
Defined.

Lemma extract_headings_bounds_witness :
  mk_entry "H2" "Background" 2
    ∈ outline (extract_headings (RD:=sample_reader) (LD:=failing_detector) "/app/input/report.pdf") /\
  level (mk_entry "H2" "Background" 2) ∈ ["H1"; "H2"; "H3"] /\
  1 <= String.length (text (mk_entry "H2" "Background" 2)) < 100 /\
  1 <= page (mk_entry "H2" "Background" 2).
Proof.
  assert (mk_entry "H2" "Background" 2
    ∈ outline (extract_headings (RD:=sample_reader) (LD:=failing_detector) "/app/input/report.pdf"))
    as Hin by (vm_compute; right; right; left).
  split; [exact Hin|]. exact (extract_headings_bounds (RD:=sample_reader) (LD:=failing_detector) _ _ Hin).
Defined.

End Extract.
