(* ===== verification/Json.v ===== *)
(** * The JSON printer of [json.dump(result, f, indent=2, ensure_ascii=False)]
      (src/main.py 87)

    The values the program dumps are dicts, lists, strings and ints, the
    type [json] below.  [encode] follows CPython's [_make_iterencode] with
    an integer indent: a non-empty list or dict opens with "[" or "{",
    puts each item on its own line indented by two more spaces,
    separates items with "," (no trailing space when [indent] is given),
    keys from values with ": ", and closes on a line of the outer indent;
    an empty list is "[]" and an empty dict "{}".  Strings are escaped as
    [c_encode_basestring] does: the quote, the backslash and the control
    characters below 0x20 ([\b \f \n \r \t] by name, the others as
    lowercase [\u00xx]); every other character is written as is
    ([ensure_ascii=False]).  [unescape] reads an escaped body back and,
    as JSON requires, rejects raw quotes and raw control characters; the
    round trip [unescape_escape] shows the escaping loses nothing and
    leaves no raw control character. *)

From stdpp Require Import base list strings pretty.
From Stdlib Require Import Ascii String.
From S2P Require Import Prelude.

Module Json.
Local Open Scope string_scope.

#[local] Set Warnings "-register-all".
Inductive json :=
| JString (s : string)
| JInt (n : nat)
| JList (items : list json)
| JObject (members : list (string * json)).

(** The quote and the backslash, written through their codes. *)
Definition dquote : ascii := ascii_of_nat 34.
Definition bslash : ascii := ascii_of_nat 92.

Definition hex_digit (n : nat) : ascii :=
  match n with
  | 10 => "a" | 11 => "b" | 12 => "c" | 13 => "d" | 14 => "e" | 15 => "f"
  | _ => ascii_of_nat (48 + n)
  end%char.

(** One character of a string body ([ESCAPE_DCT] of CPython's json). *)
Definition escape_char (c : ascii) : string :=
  let n := nat_of_ascii c in
  if Nat.eqb n 34 then String bslash (String dquote "")
  else if Nat.eqb n 92 then String bslash (String bslash "")
  else if Nat.eqb n 8 then String bslash "b"
  else if Nat.eqb n 12 then String bslash "f"
  else if Nat.eqb n 10 then String bslash "n"
  else if Nat.eqb n 13 then String bslash "r"
  else if Nat.eqb n 9 then String bslash "t"
  else if Nat.ltb n 32
  then String bslash ("u00" ++ String (hex_digit (n / 16)) (String (hex_digit (n mod 16)) ""))
  else String c "".

Fixpoint escape (s : string) : string :=
  match s with
  | EmptyString => ""
  | String c s' => escape_char c ++ escape s'
  end.

(** Text between double quotes. *)
Definition quoted (s : string) : string := String dquote (s ++ String dquote "").

(** A JSON string literal. *)
Definition encode_string (s : string) : string := quoted (escape s).

(** A line break followed by the indent of nesting level [lvl]. *)
Definition newline_indent (lvl : nat) : string :=
  String "010"%char (String.concat "" (repeat "  " lvl)).

(** [_iterencode] at nesting level [lvl]. *)
Fixpoint encode (lvl : nat) (j : json) : string :=
  match j with
  | JString s => encode_string s
  | JInt n => pretty n
  | JList [] => "[]"
  | JList (x :: xs) =>
      "[" ++ newline_indent (S lvl) ++ encode (S lvl) x ++
      (fix items (l : list json) : string :=
         match l with
         | [] => ""
         | y :: ys => "," ++ newline_indent (S lvl) ++ encode (S lvl) y ++ items ys
         end) xs
      ++ newline_indent lvl ++ "]"
  | JObject [] => "{}"
  | JObject ((k, v) :: kvs) =>
      "{" ++ newline_indent (S lvl) ++ encode_string k ++ ": " ++ encode (S lvl) v ++
      (fix members (l : list (string * json)) : string :=
         match l with
         | [] => ""
         | (k', v') :: rest =>
             "," ++ newline_indent (S lvl) ++ encode_string k' ++ ": " ++ encode (S lvl) v'
             ++ members rest
         end) kvs
      ++ newline_indent lvl ++ "}"
  end.

(** [json.dump(obj, f, indent=2, ensure_ascii=False)]: the text written. *)
Definition dump (j : json) : string := encode 0 j.

(** ** Reading an escaped body back *)

Definition hex_value (c : ascii) : option nat :=
  let n := nat_of_ascii c in
  if Nat.leb 48 n && Nat.leb n 57 then Some (n - 48)
  else if Nat.leb 97 n && Nat.leb n 102 then Some (n - 87)
  else None.

(** One escaped character at the head of [s], and the rest.  As JSON
    requires, a raw quote or a raw control character (below 0x20) is not
    a character of a string body. *)
Definition unescape_char (s : string) : option (ascii * string) :=
  match s with
  | String c s' =>
      if Ascii.eqb c bslash then
        match s' with
        | String e s'' =>
            if Ascii.eqb e dquote then Some (dquote, s'')
            else if Ascii.eqb e bslash then Some (bslash, s'')
            else if Ascii.eqb e "b" then Some (ascii_of_nat 8, s'')
            else if Ascii.eqb e "f" then Some (ascii_of_nat 12, s'')
            else if Ascii.eqb e "n" then Some (ascii_of_nat 10, s'')
            else if Ascii.eqb e "r" then Some (ascii_of_nat 13, s'')
            else if Ascii.eqb e "t" then Some (ascii_of_nat 9, s'')
            else if Ascii.eqb e "u" then
              match s'' with
              | String a (String b (String h (String l rest))) =>
                  match hex_value a, hex_value b, hex_value h, hex_value l with
                  | Some va, Some vb, Some vh, Some vl =>
                      Some (ascii_of_nat (((va * 16 + vb) * 16 + vh) * 16 + vl), rest)
                  | _, _, _, _ => None
                  end
              | _ => None
              end
            else None
        | EmptyString => None
        end
      else if Ascii.eqb c dquote then None
      else if Nat.ltb (nat_of_ascii c) 32 then None
      else Some (c, s')
  | EmptyString => None
  end.

(** Decode a body; [fuel] bounds the number of characters read, and the
    length of the body is always enough. *)
Fixpoint unescape_fuel (fuel : nat) (s : string) : option string :=
  match s with
  | EmptyString => Some ""
  | _ =>
      match fuel with
      | O => None
      | S fuel' =>
          match unescape_char s with
          | Some (c, rest) => s' ← unescape_fuel fuel' rest; Some (String c s')
          | None => None
          end
      end
  end.

Definition unescape (s : string) : option string := unescape_fuel (String.length s) s.

(** ** The escaping round trip *)

(** Reading back one escaped character consumes exactly its escape. *)
Lemma unescape_step c f rest :
  unescape_fuel (S f) (escape_char c ++ rest) = (s' ← unescape_fuel f rest; Some (String c s')).
Proof. destruct c as [[] [] [] [] [] [] [] []]; reflexivity. Qed.

Lemma escape_char_length c : 1 <= String.length (escape_char c).
Proof. destruct c as [[] [] [] [] [] [] [] []]; simpl; lia. Qed.

Lemma escape_length s : String.length s <= String.length (escape s).
Proof.
  induction s as [|c s IH]; simpl; [lia|].
  rewrite string_length_app. pose proof (escape_char_length c). lia.
Qed.

Lemma unescape_fuel_escape s f : String.length s <= f -> unescape_fuel f (escape s) = Some s.
Proof.
  revert f. induction s as [|c s IH]; intros f Hf; simpl in *; [by destruct f|].
  destruct f as [|f]; [lia|]. rewrite unescape_step, IH by lia. done.
Qed.

(** (C29) Round trip: the escaped body of any string reads back as the
    string under a reader that, as JSON requires, refuses raw quotes and
    raw control characters; so the escaping loses nothing and leaves no
    raw control character, and distinct texts are written differently. *)
Theorem unescape_escape s : unescape (escape s) = Some s.
Proof. apply unescape_fuel_escape, escape_length. Qed.

End Json.
