(* ===== verification/JsonParse.v ===== *)
(** * Reading back what [json.dump] writes

    A reader for the JSON texts of [Json.encode]: whitespace between
    tokens, strings with the escapes of [Json.escape] (a raw quote or a
    raw control character in a string is refused, as JSON requires),
    non-negative integers, arrays and objects.  It is the reference side
    of the output-format contract, not code of the program: [parse_dump]
    shows that every value the program dumps reads back as itself, so the
    text is valid JSON for this reader and loses nothing.
    [dump_no_trailing_space] shows the layout of [indent=2] leaves no
    space at the end of a line.

    The reader is a mutual Fixpoint with fuel ([parse_value],
    [parse_items], [parse_members]); [parse] runs it with one more unit
    of fuel than the length of its input, and [json_size_length] shows
    that this is enough for every dumped value.  Strings are read with
    the fuel of their length, as [Json.unescape] does. *)

From stdpp Require Import base list strings pretty numbers.
From Stdlib Require Import Ascii String NArith Btauto.
From S2P Require Import Prelude Json.

Module JsonParse.
Import Json.
Local Open Scope string_scope.

(** ** Nested induction on [json] *)

Section json_ind'.
Variable P : json -> Prop.
Hypothesis P_string : forall s, P (JString s).
Hypothesis P_int : forall n, P (JInt n).
Hypothesis P_list : forall l, Forall P l -> P (JList l).
Hypothesis P_object : forall m, Forall (fun kv => P kv.2) m -> P (JObject m).

Fixpoint json_ind' (j : json) : P j :=
  match j with
  | JString s => P_string s
  | JInt n => P_int n
  | JList l =>
      P_list l ((fix go (l : list json) : Forall P l :=
                   match l with
                   | [] => @Forall_nil _ P
                   | x :: xs => @Forall_cons _ P x xs (json_ind' x) (go xs)
                   end) l)
  | JObject m =>
      P_object m ((fix go (m : list (string * json)) : Forall (fun kv => P kv.2) m :=
                     match m with
                     | [] => @Forall_nil _ _
                     | (k, v) :: kvs => @Forall_cons _ (fun kv => P kv.2) (k, v) kvs
                                          (json_ind' v) (go kvs)
                     end) m)
  end.
End json_ind'.

(** The items and members of a non-empty array or object after the first,
    as [encode] writes them. *)
Definition encode_items (lvl : nat) : list json -> string :=
  fix items (l : list json) : string :=
    match l with
    | [] => ""
    | y :: ys => "," ++ newline_indent (S lvl) ++ encode (S lvl) y ++ items ys
    end.

Definition encode_members (lvl : nat) : list (string * json) -> string :=
  fix members (l : list (string * json)) : string :=
    match l with
    | [] => ""
    | (k', v') :: rest =>
        "," ++ newline_indent (S lvl) ++ encode_string k' ++ ": " ++ encode (S lvl) v'
        ++ members rest
    end.

Lemma encode_items_nil lvl : encode_items lvl [] = "".
Proof. reflexivity. Qed.

Lemma encode_items_cons lvl y ys :
  encode_items lvl (y :: ys) = "," ++ newline_indent (S lvl) ++ encode (S lvl) y ++ encode_items lvl ys.
Proof. reflexivity. Qed.

Lemma encode_members_nil lvl : encode_members lvl [] = "".
Proof. reflexivity. Qed.

Lemma encode_members_cons lvl k v kvs :
  encode_members lvl ((k, v) :: kvs) =
  "," ++ newline_indent (S lvl) ++ encode_string k ++ ": " ++ encode (S lvl) v ++ encode_members lvl kvs.
Proof. reflexivity. Qed.

Lemma encode_list_cons lvl x xs :
  encode lvl (JList (x :: xs)) =
  "[" ++ newline_indent (S lvl) ++ encode (S lvl) x ++ encode_items lvl xs
  ++ newline_indent lvl ++ "]".
Proof. reflexivity. Qed.

Lemma encode_object_cons lvl k v kvs :
  encode lvl (JObject ((k, v) :: kvs)) =
  "{" ++ newline_indent (S lvl) ++ encode_string k ++ ": " ++ encode (S lvl) v ++
  encode_members lvl kvs ++ newline_indent lvl ++ "}".
Proof. reflexivity. Qed.

(** ** The reader *)

(** JSON whitespace: space, tab, line feed, carriage return. *)
Definition is_ws (c : ascii) : bool :=
  let n := nat_of_ascii c in Nat.eqb n 32 || Nat.eqb n 9 || Nat.eqb n 10 || Nat.eqb n 13.

Fixpoint skip_ws (s : string) : string :=
  match s with
  | String c r => if is_ws c then skip_ws r else s
  | EmptyString => EmptyString
  end.

Definition is_digit (c : ascii) : bool :=
  let n := nat_of_ascii c in Nat.leb 48 n && Nat.leb n 57.

(** The longest run of digits at the head of [s], as a number. *)
Fixpoint read_digits (acc : N) (s : string) : N * string :=
  match s with
  | String c r =>
      if is_digit c then read_digits (acc * 10 + N.of_nat (nat_of_ascii c - 48))%N r
      else (acc, s)
  | EmptyString => (acc, EmptyString)
  end.

(** A string body up to its closing quote. *)
Fixpoint read_chars (fuel : nat) (s : string) : option (string * string) :=
  match fuel with
  | O => None
  | S f =>
      match s with
      | String c r =>
          if Ascii.eqb c dquote then Some (EmptyString, r)
          else match unescape_char s with
               | Some (c', r') =>
                   match read_chars f r' with
                   | Some (str, r'') => Some (String c' str, r'')
                   | None => None
                   end
               | None => None
               end
      | EmptyString => None
      end
  end.

Definition read_string (s : string) : option (string * string) := read_chars (String.length s) s.

Fixpoint parse_value (fuel : nat) (s : string) : option (json * string) :=
  match fuel with
  | O => None
  | S f =>
      match skip_ws s with
      | String c r =>
          if Ascii.eqb c dquote then
            match read_string r with
            | Some (str, r') => Some (JString str, r')
            | None => None
            end
          else if Ascii.eqb c "[" then
            match skip_ws r with
            | String c' r' =>
                if Ascii.eqb c' "]" then Some (JList [], r')
                else match parse_items f r with
                     | Some (l, r'') => Some (JList l, r'')
                     | None => None
                     end
            | EmptyString => None
            end
          else if Ascii.eqb c "{" then
            match skip_ws r with
            | String c' r' =>
                if Ascii.eqb c' "}" then Some (JObject [], r')
                else match parse_members f r with
                     | Some (m, r'') => Some (JObject m, r'')
                     | None => None
                     end
            | EmptyString => None
            end
          else if is_digit c then
            let (n, r') := read_digits 0 (String c r) in Some (JInt (N.to_nat n), r')
          else None
      | EmptyString => None
      end
  end
with parse_items (fuel : nat) (s : string) : option (list json * string) :=
  match fuel with
  | O => None
  | S f =>
      match parse_value f s with
      | Some (v, r) =>
          match skip_ws r with
          | String c r' =>
              if Ascii.eqb c "," then
                match parse_items f r' with
                | Some (vs, r'') => Some (v :: vs, r'')
                | None => None
                end
              else if Ascii.eqb c "]" then Some ([v], r')
              else None
          | EmptyString => None
          end
      | None => None
      end
  end
with parse_members (fuel : nat) (s : string) : option (list (string * json) * string) :=
  match fuel with
  | O => None
  | S f =>
      match skip_ws s with
      | String c r =>
          if Ascii.eqb c dquote then
            match read_string r with
            | Some (k, r1) =>
                match skip_ws r1 with
                | String c1 r2 =>
                    if Ascii.eqb c1 ":" then
                      match parse_value f r2 with
                      | Some (v, r3) =>
                          match skip_ws r3 with
                          | String c3 r4 =>
                              if Ascii.eqb c3 "," then
                                match parse_members f r4 with
                                | Some (m, r5) => Some ((k, v) :: m, r5)
                                | None => None
                                end
                              else if Ascii.eqb c3 "}" then Some ([(k, v)], r4)
                              else None
                          | EmptyString => None
                          end
                      | None => None
                      end
                    else None
                | EmptyString => None
                end
            | None => None
            end
          else None
      | EmptyString => None
      end
  end.

(** A whole text: one value and nothing but whitespace after it. *)
Definition parse (s : string) : option json :=
  match parse_value (S (String.length s)) s with
  | Some (j, r) => if String.eqb (skip_ws r) "" then Some j else None
  | None => None
  end.

(** The nesting measure that bounds the fuel a value needs. *)
Fixpoint json_size (j : json) : nat :=
  match j with
  | JString _ | JInt _ => 1
  | JList l => S (sum_list_with (fun x => S (json_size x)) l)
  | JObject m => S (sum_list_with (fun kv => S (json_size kv.2)) m)
  end.

(** ** Whitespace *)

Fixpoint all_ws (s : string) : bool :=
  match s with
  | String c r => is_ws c && all_ws r
  | EmptyString => true
  end.

Lemma all_ws_app a b : all_ws (a ++ b) = all_ws a && all_ws b.
Proof. induction a as [|c a IH]; [done|]. rewrite string_app_cons. simpl. by rewrite IH, andb_assoc. Qed.

Lemma all_ws_newline_indent lvl : all_ws (newline_indent lvl) = true.
Proof.
  unfold newline_indent. simpl. induction lvl as [|k IH]; [done|].
  destruct k as [|k]; [done|].
  change (String.concat "" (repeat "  " (S (S k))))
    with ("  " ++ "" ++ String.concat "" (repeat "  " (S k))).
  by rewrite string_app_nil_l, all_ws_app, IH.
Qed.

Lemma skip_ws_app w s : all_ws w = true -> skip_ws (w ++ s) = skip_ws s.
Proof.
  induction w as [|c w IH]; [done|]. rewrite string_app_cons. simpl.
  intros [-> ?]%andb_prop. by apply IH.
Qed.

Lemma skip_ws_nonws c r : is_ws c = false -> skip_ws (String c r) = String c r.
Proof. simpl. by intros ->. Qed.

(** ** Numbers *)

Definition starts_digit (s : string) : bool :=
  match s with
  | String c _ => is_digit c
  | EmptyString => false
  end.

Lemma read_digits_digit acc c r :
  is_digit c = true ->
  read_digits acc (String c r) = read_digits (acc * 10 + N.of_nat (nat_of_ascii c - 48))%N r.
Proof. cbn [read_digits]. by intros ->. Qed.

Lemma read_digits_stop acc r : starts_digit r = false -> read_digits acc r = (acc, r).
Proof. destruct r as [|c r]; [done|]. simpl. by intros ->. Qed.

Lemma pretty_N_char_digit d : is_digit (pretty_N_char d) = true.
Proof. unfold pretty_N_char. by repeat case_match. Qed.

Lemma pretty_N_char_value d :
  (d < 10)%N -> N.of_nat (nat_of_ascii (pretty_N_char d) - 48) = d.
Proof.
  intros Hd.
  assert (d = 0 \/ d = 1 \/ d = 2 \/ d = 3 \/ d = 4 \/ d = 5 \/ d = 6 \/ d = 7 \/ d = 8 \/ d = 9)%N
    as Hcases by lia.
  by repeat destruct Hcases as [->|Hcases]; subst.
Qed.

Lemma pretty_N_go_app x s r : pretty_N_go x s ++ r = pretty_N_go x (s ++ r).
Proof.
  revert s. induction (N.lt_wf_0 x) as [x _ IH]; intros s.
  destruct (decide (x = 0)%N) as [->|Hx]; [by rewrite !pretty_N_go_0|].
  rewrite (pretty_N_go_step x s), (pretty_N_go_step x (s ++ r)) by lia.
  rewrite IH by (apply N.div_lt; lia). by rewrite string_app_cons.
Qed.

Lemma pretty_N_go_head x s :
  (0 < x)%N -> exists c r, pretty_N_go x s = String c r /\ is_digit c = true.
Proof.
  revert s. induction (N.lt_wf_0 x) as [x _ IH]; intros s Hx.
  rewrite pretty_N_go_step by done.
  destruct (decide (x `div` 10 = 0)%N) as [->|Hne].
  - rewrite pretty_N_go_0. eexists _, _. split; [done|]. apply pretty_N_char_digit.
  - apply IH; [apply N.div_lt; lia|]. revert Hne. generalize (x `div` 10)%N. lia.
Qed.

(** Reading the digits [pretty] writes gives the number back. *)
Lemma read_digits_pretty_go x s : read_digits 0 (pretty_N_go x s) = read_digits x s.
Proof.
  revert s. induction (N.lt_wf_0 x) as [x _ IH]; intros s.
  destruct (decide (x = 0)%N) as [->|Hx]; [by rewrite pretty_N_go_0|].
  rewrite pretty_N_go_step by lia. rewrite IH by (apply N.div_lt; lia).
  rewrite read_digits_digit by apply pretty_N_char_digit.
  rewrite pretty_N_char_value by (apply N.mod_lt; lia).
  f_equal. pose proof (N.div_mod x 10) as Hdm. lia.
Qed.

Lemma pretty_nat_unfold (n : nat) :
  pretty n = if decide (N.of_nat n = 0%N) then "0" else pretty_N_go (N.of_nat n) "".
Proof. reflexivity. Qed.

Lemma read_digits_pretty (n : nat) rest :
  starts_digit rest = false -> read_digits 0 (pretty n ++ rest) = (N.of_nat n, rest).
Proof.
  intros Hr. rewrite pretty_nat_unfold. case_decide as Hn.
  - rewrite Hn, string_app_cons, string_app_nil_l, read_digits_digit by done.
    by apply read_digits_stop.
  - rewrite pretty_N_go_app, string_app_nil_l, read_digits_pretty_go. by apply read_digits_stop.
Qed.

Lemma pretty_head (n : nat) rest :
  exists c r, pretty n ++ rest = String c r /\ is_digit c = true.
Proof.
  rewrite pretty_nat_unfold. case_decide as Hn.
  - by eexists _, _.
  - rewrite pretty_N_go_app. apply pretty_N_go_head. lia.
Qed.

(** ** Strings *)

Lemma unescape_char_escape c r : unescape_char (escape_char c ++ r) = Some (c, r).
Proof. destruct c as [[] [] [] [] [] [] [] []]; reflexivity. Qed.

Lemma escape_char_head c r :
  exists c' r', escape_char c ++ r = String c' r' /\ Ascii.eqb c' dquote = false.
Proof. destruct c as [[] [] [] [] [] [] [] []]; eexists _, _; split; reflexivity. Qed.

Lemma read_chars_escape s f rest :
  String.length s < f -> read_chars f (escape s ++ String dquote rest) = Some (s, rest).
Proof.
  revert f. induction s as [|c s IH]; intros f Hf; destruct f as [|f]; simpl in Hf; try lia.
  - reflexivity.
  - cbn [escape]. rewrite string_app_assoc.
    destruct (escape_char_head c (escape s ++ String dquote rest)) as (c' & r' & Heq & Hc').
    cbn [read_chars]. rewrite Heq, Hc', <- Heq, unescape_char_escape, IH by lia. done.
Qed.

Lemma read_string_escape s rest : read_string (escape s ++ String dquote rest) = Some (s, rest).
Proof.
  apply read_chars_escape. rewrite string_length_app. simpl.
  pose proof (escape_length s). lia.
Qed.

(** ** The shape of [encode]'s text *)

Lemma digit_delims c :
  is_digit c = true -> is_ws c = false /\ Ascii.eqb c "]" = false /\ Ascii.eqb c "}" = false.
Proof. destruct c as [[] [] [] [] [] [] [] []]; by try discriminate. Qed.

Lemma digit_openers c :
  is_digit c = true ->
  Ascii.eqb c dquote = false /\ Ascii.eqb c "[" = false /\ Ascii.eqb c "{" = false.
Proof. destruct c as [[] [] [] [] [] [] [] []]; by try discriminate. Qed.

(** A value's text starts with a character that is not whitespace and
    does not close an array or object. *)
Lemma encode_head lvl j r :
  exists c r', encode lvl j ++ r = String c r' /\ is_ws c = false /\
    Ascii.eqb c "]" = false /\ Ascii.eqb c "}" = false.
Proof.
  destruct j as [s|n|[|x xs]|[|[k v] kvs]];
    [| |cbn [encode]|rewrite encode_list_cons|cbn [encode]|rewrite encode_object_cons].
  1: cbn [encode]; unfold encode_string, quoted; rewrite string_app_cons; by eexists _, _.
  1: destruct (pretty_head n r) as (c & r' & Heq & Hd); exists c, r';
    split; [exact Heq|]; by apply digit_delims.
  all: try (rewrite ?string_app_assoc, string_app_cons; by eexists _, _).
Qed.

Lemma skip_ws_encode lvl j r : skip_ws (encode lvl j ++ r) = encode lvl j ++ r.
Proof.
  destruct (encode_head lvl j r) as (c & r' & Heq & Hws & _). rewrite Heq.
  by apply skip_ws_nonws.
Qed.

Lemma parse_value_ws f w s : all_ws w = true -> parse_value f (w ++ s) = parse_value f s.
Proof. intros Hw. destruct f as [|f]; [done|]. cbn [parse_value]. by rewrite skip_ws_app. Qed.

Lemma parse_members_ws f w s : all_ws w = true -> parse_members f (w ++ s) = parse_members f s.
Proof. intros Hw. destruct f as [|f]; [done|]. cbn [parse_members]. by rewrite skip_ws_app. Qed.

Lemma starts_digit_sep lvl xs r :
  starts_digit (encode_items lvl xs ++ newline_indent lvl ++ r) = false.
Proof. destruct xs; [by rewrite string_app_nil_l|]. by cbn [encode_items]; rewrite string_app_cons. Qed.

Lemma encode_string_app k r : encode_string k ++ r = String dquote (escape k ++ String dquote r).
Proof.
  unfold encode_string, quoted.
  by rewrite string_app_cons, string_app_assoc, string_app_cons, string_app_nil_l.
Qed.

(** ** Round trip *)

Definition parses_back (j : json) : Prop :=
  forall lvl f rest, json_size j <= f -> starts_digit rest = false ->
  parse_value f (encode lvl j ++ rest) = Some (j, rest).

Lemma parse_items_encode lvl x xs f rest :
  Forall parses_back (x :: xs) ->
  sum_list_with (fun y => S (json_size y)) (x :: xs) <= f ->
  parse_items f (newline_indent (S lvl) ++ encode (S lvl) x ++ encode_items lvl xs ++
                 newline_indent lvl ++ "]" ++ rest) = Some (x :: xs, rest).
Proof.
  revert x f. induction xs as [|y ys IH]; intros x f Hall Hf;
    destruct f as [|f]; simpl in Hf; [lia| |lia|].
  all: apply Forall_cons_iff in Hall as [Hx Hall]; cbn [parse_items].
  all: rewrite parse_value_ws, Hx by (apply all_ws_newline_indent || lia || apply starts_digit_sep).
  - rewrite encode_items_nil, string_app_nil_l, skip_ws_app by apply all_ws_newline_indent.
    reflexivity.
  - rewrite encode_items_cons, !string_app_assoc, string_app_cons, string_app_nil_l.
    rewrite skip_ws_nonws by reflexivity. simpl.
    rewrite IH; [done|done|simpl; lia].
Qed.

Lemma parse_members_encode lvl k v kvs f rest :
  Forall (fun kv => parses_back kv.2) ((k, v) :: kvs) ->
  sum_list_with (fun kv => S (json_size kv.2)) ((k, v) :: kvs) <= f ->
  parse_members f (newline_indent (S lvl) ++ encode_string k ++ ": " ++ encode (S lvl) v ++
                   encode_members lvl kvs ++ newline_indent lvl ++ "}" ++ rest) =
  Some ((k, v) :: kvs, rest).
Proof.
  revert k v f. induction kvs as [|[k' v'] kvs IH]; intros k v f Hall Hf;
    destruct f as [|f]; simpl in Hf; [lia| |lia|].
  all: apply Forall_cons_iff in Hall as [Hv Hall]; simpl in Hv.
  all: rewrite parse_members_ws, encode_string_app by apply all_ws_newline_indent.
  all: cbn [parse_members]; rewrite skip_ws_nonws by reflexivity; simpl.
  all: rewrite read_string_escape, string_app_cons, skip_ws_nonws by reflexivity; simpl.
  all: rewrite parse_value_ws, Hv by (reflexivity || lia || apply starts_digit_sep).
  - rewrite string_app_nil_l, skip_ws_app by apply all_ws_newline_indent. reflexivity.
  - rewrite !string_app_assoc, string_app_cons, string_app_nil_l, skip_ws_nonws by reflexivity.
    simpl. rewrite IH; [done|done|simpl; lia].
Qed.

(** Every value's text reads back as the value, whatever follows it
    (short of a digit right after a number), with fuel its size. *)
Lemma parse_value_encode j : parses_back j.
Proof.
  induction j as [s|n|l IHl|m IHm] using json_ind'; intros lvl f rest Hf Hr;
    destruct f as [|f]; [simpl in Hf; lia| |simpl in Hf; lia| |simpl in Hf; lia| |simpl in Hf; lia|].
  - cbn [encode]. rewrite encode_string_app. cbn [parse_value].
    rewrite skip_ws_nonws by reflexivity. simpl. by rewrite read_string_escape.
  - cbn [encode]. destruct (pretty_head n rest) as (c & r & Heq & Hd).
    destruct (digit_delims c Hd) as (Hws & _ & _). destruct (digit_openers c Hd) as (Hq & Hl & Ho).
    cbn [parse_value]. rewrite Heq, skip_ws_nonws, Hq, Hl, Ho, Hd by done.
    rewrite <- Heq, read_digits_pretty by done. simpl. by rewrite Nat2N.id.
  - destruct l as [|x xs]; [reflexivity|].
    rewrite encode_list_cons, !string_app_assoc, string_app_cons, string_app_nil_l.
    cbn [parse_value]. rewrite skip_ws_nonws by reflexivity.
    rewrite skip_ws_app by apply all_ws_newline_indent.
    destruct (encode_head (S lvl) x (encode_items lvl xs ++ newline_indent lvl ++ "]" ++ rest))
      as (c & r' & Heq & Hws & Hb & _).
    rewrite Heq, skip_ws_nonws by done. cbn beta iota. rewrite Hb, <- Heq.
    rewrite parse_items_encode; [reflexivity|done|simpl in Hf |- *; lia].
  - destruct m as [|[k v] kvs]; [reflexivity|].
    rewrite encode_object_cons, !string_app_assoc, string_app_cons, string_app_nil_l.
    cbn [parse_value]. rewrite skip_ws_nonws by reflexivity.
    rewrite skip_ws_app, encode_string_app by apply all_ws_newline_indent.
    rewrite skip_ws_nonws by reflexivity. rewrite <- encode_string_app.
    rewrite parse_members_encode; [reflexivity|done|simpl in Hf |- *; lia].
Qed.

(** ** Fuel *)

Lemma newline_indent_length lvl : 1 <= String.length (newline_indent lvl).
Proof. unfold newline_indent. simpl. lia. Qed.

Lemma encode_items_length lvl xs :
  Forall (fun y => forall lvl, json_size y <= String.length (encode lvl y)) xs ->
  sum_list_with (fun y => S (json_size y)) xs <= String.length (encode_items lvl xs).
Proof.
  induction xs as [|y ys IH]; [simpl; lia|]. intros [Hy Hys]%Forall_cons_iff.
  rewrite encode_items_cons, !string_length_app. simpl.
  specialize (Hy (S lvl)). specialize (IH Hys). lia.
Qed.

Lemma encode_members_length lvl kvs :
  Forall (fun kv => forall lvl, json_size kv.2 <= String.length (encode lvl kv.2)) kvs ->
  sum_list_with (fun kv => S (json_size kv.2)) kvs <= String.length (encode_members lvl kvs).
Proof.
  induction kvs as [|[k v] kvs IH]; [simpl; lia|]. intros [Hv Hkvs]%Forall_cons_iff.
  rewrite encode_members_cons, !string_length_app. simpl in *.
  specialize (Hv (S lvl)). specialize (IH Hkvs). lia.
Qed.

(** A value's text is at least as long as its size, so the fuel of
    [parse] is enough. *)
Lemma json_size_length j lvl : json_size j <= String.length (encode lvl j).
Proof.
  revert lvl. induction j as [s|n|l IHl|m IHm] using json_ind'; intros lvl.
  - cbn [encode]. unfold encode_string, quoted. simpl. lia.
  - destruct (pretty_head n "") as (c & r & Heq & _). rewrite string_app_nil_r in Heq.
    cbn [encode]. rewrite Heq. simpl. lia.
  - destruct l as [|x xs]; [simpl; lia|].
    apply Forall_cons_iff in IHl as [Hx Hxs].
    rewrite encode_list_cons, !string_length_app.
    pose proof (encode_items_length lvl xs Hxs). pose proof (Hx (S lvl)).
    pose proof (newline_indent_length lvl). simpl. lia.
  - destruct m as [|[k v] kvs]; [simpl; lia|].
    apply Forall_cons_iff in IHm as [Hv Hkvs]. simpl in Hv.
    rewrite encode_object_cons, !string_length_app.
    pose proof (encode_members_length lvl kvs Hkvs). pose proof (Hv (S lvl)).
    pose proof (newline_indent_length lvl). simpl. lia.
Qed.

Lemma parse_dump_value j : parse (dump j) = Some j.
Proof.
  unfold parse, dump.
  pose proof (parse_value_encode j 0 (S (String.length (encode 0 j))) "") as H.
  rewrite string_app_nil_r in H. rewrite H; [done| |done].
  pose proof (json_size_length j 0). lia.
Qed.

(** Distinct values are written as distinct texts. *)
Corollary dump_inj j1 j2 : dump j1 = dump j2 -> j1 = j2.
Proof.
  intros Heq. enough (Some j1 = Some j2) by congruence.
  rewrite <- (parse_dump_value j1), <- (parse_dump_value j2). by rewrite Heq.
Qed.

(** (C36) Round trip of the output format: the text [json.dump] writes
    for any value reads back, as a whole JSON text, as that value. *)
Theorem parse_dump j : parse (dump j) = Some j.
Proof. apply parse_dump_value. Qed.

(** ** Layout: no trailing whitespace

    With an integer indent, CPython separates items with "," (not ", "),
    so no line of the text ends with a space.  [space_before_eol] tests a
    text for a space right before a line break or at its end.  The proof
    summarises a text by four booleans (empty, starts with a line break,
    ends with a space, has a space before a line break), a summary that
    is a monoid homomorphism from [++]. *)

Fixpoint space_before_eol (s : string) : bool :=
  match s with
  | EmptyString => false
  | String c r =>
      (Ascii.eqb c " " &&
       match r with EmptyString => true | String d _ => Ascii.eqb d "010" end)
      || space_before_eol r
  end.

Record layout := mk_layout { l_empty : bool; l_nl : bool; l_sp : bool; l_bad : bool }.

Definition layout_unit : layout := mk_layout true false false false.

(** The summary of a character that is neither a space nor a line break. *)
Definition layout_plain : layout := mk_layout false false false false.

Definition layout_char (c : ascii) : layout :=
  mk_layout false (Ascii.eqb c "010") (Ascii.eqb c " ") false.

Definition layout_app (x y : layout) : layout :=
  if l_empty x then y else if l_empty y then x
  else mk_layout false (l_nl x) (l_sp y) (l_bad x || l_bad y || (l_sp x && l_nl y)).

Fixpoint summary (s : string) : layout :=
  match s with
  | EmptyString => layout_unit
  | String c r => layout_app (layout_char c) (summary r)
  end.

Lemma layout_app_assoc x y z : layout_app x (layout_app y z) = layout_app (layout_app x y) z.
Proof.
  destruct x as [[] nx sx bx], y as [[] ny sy by'], z as [[] nz sz bz];
    unfold layout_app; simpl; try reflexivity. f_equal. btauto.
Qed.

Lemma summary_app a b : summary (a ++ b) = layout_app (summary a) (summary b).
Proof.
  induction a as [|c a IH].
  - reflexivity.
  - rewrite string_app_cons. simpl. by rewrite IH, layout_app_assoc.
Qed.

Lemma space_before_eol_summary s : space_before_eol s = l_sp (summary s) || l_bad (summary s).
Proof.
  induction s as [|c [|d r] IH]; [done|simpl; btauto|].
  change (space_before_eol (String c (String d r))) with
    ((Ascii.eqb c " " && Ascii.eqb d "010") || space_before_eol (String d r)).
  rewrite IH. cbn [summary].
  destruct (summary r) as [[] n sp b]; unfold layout_app, layout_char; simpl; btauto.
Qed.

Lemma summary_escape_char c r :
  summary (escape_char c ++ r) = layout_app (mk_layout false false (Ascii.eqb c " ") false) (summary r).
Proof.
  rewrite summary_app. f_equal.
  destruct c as [[] [] [] [] [] [] [] []]; reflexivity.
Qed.

Lemma summary_escape s : l_nl (summary (escape s)) = false /\ l_bad (summary (escape s)) = false.
Proof.
  induction s as [|c s [IHn IHb]]; [done|]. cbn [escape]. rewrite summary_escape_char.
  destruct (summary (escape s)) as [[] n sp b]; simpl in *; subst; by destruct (Ascii.eqb c " ").
Qed.

Lemma summary_encode_string s : summary (encode_string s) = layout_plain.
Proof.
  rewrite <- (string_app_nil_r (encode_string s)), encode_string_app.
  change (summary (String dquote (escape s ++ String dquote "")))
    with (layout_app (layout_char dquote) (summary (escape s ++ String dquote ""))).
  rewrite summary_app. destruct (summary_escape s) as [Hn Hb].
  destruct (summary (escape s)) as [[] n [] b]; simpl in *; subst; reflexivity.
Qed.

Lemma layout_char_digit d : layout_char (pretty_N_char d) = layout_plain.
Proof. unfold pretty_N_char. by repeat case_match. Qed.

Lemma summary_pretty_N_go x s :
  (0 < x)%N -> summary (pretty_N_go x s) = layout_app layout_plain (summary s).
Proof.
  revert s. induction (N.lt_wf_0 x) as [x _ IH]; intros s Hx.
  rewrite pretty_N_go_step by done.
  destruct (decide (x `div` 10 = 0)%N) as [->|Hne].
  - rewrite pretty_N_go_0. simpl. by rewrite layout_char_digit.
  - rewrite IH; [|apply N.div_lt; lia|revert Hne; generalize (x `div` 10)%N; lia].
    simpl. rewrite layout_char_digit, layout_app_assoc. reflexivity.
Qed.

Lemma summary_pretty (n : nat) : summary (pretty n) = layout_plain.
Proof.
  rewrite pretty_nat_unfold. case_decide as Hn; [reflexivity|].
  rewrite summary_pretty_N_go by lia. reflexivity.
Qed.

Lemma summary_newline_indent lvl :
  summary (newline_indent lvl) = mk_layout false true (negb (Nat.eqb lvl 0)) false.
Proof.
  unfold newline_indent. cbn [summary].
  assert (summary (String.concat "" (repeat "  " lvl)) =
          if Nat.eqb lvl 0 then layout_unit else mk_layout false false true false) as ->.
  { induction lvl as [|k IH]; [done|]. destruct k as [|k]; [done|].
    change (String.concat "" (repeat "  " (S (S k))))
      with ("  " ++ "" ++ String.concat "" (repeat "  " (S k))).
    rewrite string_app_nil_l, summary_app, IH. reflexivity. }
  by destruct lvl.
Qed.

Lemma summary_encode_items lvl xs :
  Forall (fun y => forall lvl, summary (encode lvl y) = layout_plain) xs ->
  summary (encode_items lvl xs) = match xs with [] => layout_unit | _ => layout_plain end.
Proof.
  induction xs as [|y ys IH]; [done|]. intros [Hy Hys]%Forall_cons_iff.
  rewrite encode_items_cons, !summary_app, Hy, IH, summary_newline_indent by done.
  by destruct ys.
Qed.

Lemma summary_encode_members lvl kvs :
  Forall (fun kv => forall lvl, summary (encode lvl kv.2) = layout_plain) kvs ->
  summary (encode_members lvl kvs) = match kvs with [] => layout_unit | _ => layout_plain end.
Proof.
  induction kvs as [|[k v] kvs IH]; [done|]. intros [Hv Hkvs]%Forall_cons_iff.
  rewrite encode_members_cons, !summary_app, Hv, IH, summary_newline_indent, summary_encode_string
    by done.
  by destruct kvs.
Qed.

(** Every value's text starts with neither a space nor a line break, ends
    with neither, and has no space before a line break. *)
Lemma summary_encode j lvl : summary (encode lvl j) = layout_plain.
Proof.
  revert lvl. induction j as [s|n|l IHl|m IHm] using json_ind'; intros lvl.
  - apply summary_encode_string.
  - apply summary_pretty.
  - destruct l as [|x xs]; [reflexivity|]. apply Forall_cons_iff in IHl as [Hx Hxs].
    rewrite encode_list_cons, !summary_app, Hx, summary_encode_items, !summary_newline_indent
      by done.
    by destruct xs, lvl.
  - destruct m as [|[k v] kvs]; [reflexivity|]. apply Forall_cons_iff in IHm as [Hv Hkvs].
    rewrite encode_object_cons, !summary_app, Hv, summary_encode_members, !summary_newline_indent,
      summary_encode_string by done.
    by destruct kvs, lvl.
Qed.

(** (C34) The layout of [indent=2] leaves no trailing whitespace: in the
    text [json.dump] writes for any value, no space comes right before a
    line break or at the end (the item separator is "," and the key
    separator ": " is always followed by a value). *)
Theorem dump_no_trailing_space j : space_before_eol (dump j) = false.
Proof. unfold dump. by rewrite space_before_eol_summary, summary_encode. Qed.

End JsonParse.
