(* ===== verification/Batch.v ===== *)
(** * The batch driver [process_all_pdfs] (src/main.py 79-88)

    The file system is a record of the directories that exist and of the
    files with their contents ([fs_state]).  [os.makedirs(output_dir,
    exist_ok=True)] adds the output directory; each entry of the listing
    of the input directory that ends with ".pdf" is processed by
    [extract_headings] and its result written with [json.dump] to
    [os.path.join(output_dir, filename.replace(".pdf", ".json"))],
    replacing any file of that name ([open(..., "w")]).  The listing is a
    parameter: [os.listdir] returns the names in an unspecified order.
    This is the run in which no exception escapes; [Run.v] adds the
    exceptions and the log lines and refines to it.

    [process_all_pdfs_files] gives the contents of every path after the
    run: the output of the last listed PDF whose output path it is, or
    what was there before.  [dump_result_schema] checks every file
    against the output schema of the spec. *)

From stdpp Require Import base list strings gmap.
From Stdlib Require Import ZArith Ascii String.
From S2P Require Import Prelude PyStr Fragments Ranker Assembler Extract Json JsonParse.

Module Batch.
Import Fragments Assembler Extract Json.

(** The dicts of main.py 60-64 and 67-70 as JSON values, keys in order. *)
Definition entry_json (e : outline_entry) : json :=
  JObject [("level", JString (level e)); ("text", JString (text e)); ("page", JInt (page e))]%string.

Definition result_json (r : outline_result) : json :=
  JObject [("title", JString (title r)); ("outline", JList (map entry_json (outline r)))]%string.

Record fs_state := mk_fs {
  fs_dirs : gset string;
  fs_files : gmap string string
}.

(** [os.makedirs(output_dir, exist_ok=True)] (main.py 80). *)
Definition makedirs (d : string) (st : fs_state) : fs_state :=
  mk_fs ({[d]} ∪ fs_dirs st) (fs_files st).

(** [filename.replace(".pdf", ".json")] (main.py 85). *)
Definition output_name (filename : string) : string := PyStr.replace ".pdf" ".json" filename.

Definition output_path (output_dir filename : string) : string :=
  PyStr.join output_dir (output_name filename).

Section batch.
Context {K : Type} `{Countable K} `{!FontSizeOrder K} {RD : PdfReader K} {LD : LangDetector}.

(** The body of [for filename in os.listdir(input_dir)] (main.py 82-88). *)
Definition process_file (input_dir output_dir : string) (st : fs_state) (filename : string)
    : fs_state :=
  if PyStr.endswith ".pdf" filename then
    let pdf_path := PyStr.join input_dir filename in
    let result := extract_headings pdf_path in
    mk_fs (fs_dirs st)
      (<[output_path output_dir filename := dump (result_json result)]> (fs_files st))
  else st.

(** [process_all_pdfs(input_dir, output_dir)], with [listing] the value of
    [os.listdir(input_dir)] (main.py 79-88). *)
Definition process_all_pdfs (input_dir output_dir : string) (listing : list string)
    (st : fs_state) : fs_state :=
  foldl (process_file input_dir output_dir) (makedirs output_dir st) listing.

(** ** Reference *)

(** The last listed PDF whose output goes to [q]. *)
Definition last_writer (output_dir : string) (listing : list string) (q : string)
    : option string :=
  last (filter (fun f => PyStr.endswith ".pdf" f = true /\ output_path output_dir f = q) listing).
End batch.

(** ** The output schema

    The persisted output format of the spec: an object with exactly the
    keys [title] (a string) and [outline] (an array), in this order, each
    element of the array an object with exactly the keys [level], [text]
    (strings) and [page] (an integer), in this order. *)
Definition entry_schema (j : json) : bool :=
  match j with
  | JObject [(k1, JString _); (k2, JString _); (k3, JInt _)] =>
      String.eqb k1 "level" && String.eqb k2 "text" && String.eqb k3 "page"
  | _ => false
  end.

Definition result_schema (j : json) : bool :=
  match j with
  | JObject [(k1, JString _); (k2, JList entries)] =>
      String.eqb k1 "title" && String.eqb k2 "outline" && forallb entry_schema entries
  | _ => false
  end.

(** ** Lemmas *)

Section batch_lemmas.
Context {K : Type} `{Countable K} `{!FontSizeOrder K} {RD : PdfReader K} {LD : LangDetector}.

Lemma process_files_dirs input_dir output_dir listing st :
  fs_dirs (foldl (process_file input_dir output_dir) st listing) = fs_dirs st.
Proof.
  induction listing as [|f l IH] using rev_ind; [done|].
  rewrite foldl_app_snoc. unfold process_file. by destruct (PyStr.endswith _ _).
Qed.

(** The loop leaves at each path the output of its last writer. *)
Lemma process_files_lookup input_dir output_dir listing st q :
  fs_files (foldl (process_file input_dir output_dir) st listing) !! q =
  match last_writer output_dir listing q with
  | Some f => Some (dump (result_json (extract_headings (PyStr.join input_dir f))))
  | None => fs_files st !! q
  end.
Proof.
  induction listing as [|f l IH] using rev_ind; [done|].
  rewrite foldl_app_snoc. unfold last_writer. rewrite filter_app, filter_cons, filter_nil.
  unfold process_file. case_decide as Hd.
  - destruct Hd as [Hf <-]. rewrite Hf, last_snoc. simpl. by rewrite lookup_insert_eq.
  - rewrite app_nil_r. destruct (PyStr.endswith ".pdf" f) eqn:Hf; simpl; [|apply IH].
    rewrite lookup_insert_ne by naive_solver. apply IH.
Qed.

(** A file with distinct output paths for all PDFs of the listing is
    its own last writer. *)
Lemma last_writer_unique output_dir listing f :
  NoDup (map (output_path output_dir) (filter (fun g => PyStr.endswith ".pdf" g = true) listing)) ->
  f ∈ listing -> PyStr.endswith ".pdf" f = true ->
  last_writer output_dir listing (output_path output_dir f) = Some f.
Proof.
  intros Hnd Hf Hpdf. unfold last_writer. apply last_all_eq.
  - apply list_elem_of_filter. auto.
  - intros y [[Hy Heq] Hyl]%list_elem_of_filter.
    eapply NoDup_map_inj_on; [exact Hnd| | |exact Heq]; apply list_elem_of_filter; auto.
Qed.

Lemma process_file_non_pdf input_dir output_dir st f :
  PyStr.endswith ".pdf" f = false -> process_file input_dir output_dir st f = st.
Proof. unfold process_file. by intros ->. Qed.

Lemma process_files_filter input_dir output_dir listing st :
  foldl (process_file input_dir output_dir) st listing =
  foldl (process_file input_dir output_dir) st
    (filter (fun g => PyStr.endswith ".pdf" g = true) listing).
Proof.
  revert st. induction listing as [|f l IH]; intros st; [done|]. rewrite filter_cons. simpl.
  case_decide as Hf; simpl; [apply IH|].
  rewrite process_file_non_pdf by (by apply not_true_is_false). apply IH.
Qed.

Lemma makedirs_files d st : fs_files (makedirs d st) = fs_files st.
Proof. done. Qed.
End batch_lemmas.

(** Two files whose output names collide: [a.json.pdf] holds the spec's
    sample document, [a.pdf.pdf] a document without headings. *)
Definition collision_reader : PdfReader Z :=
  {| fitz_open p :=
       if String.eqb p "/app/input/a.json.pdf" then Some sample_doc
       else if String.eqb p "/app/input/a.pdf.pdf" then @fitz_open Z blank_reader p
       else None |}.

Definition empty_fs : fs_state := mk_fs ∅ ∅.

(** ** Theorems *)

Section batch_theorems.
Context {K : Type} `{Countable K} `{!FontSizeOrder K} {RD : PdfReader K} {LD : LangDetector}.

(** (C30) The run creates the output directory and leaves every path
    holding the JSON dump of the result of its last writer among the
    listed PDFs, or, with no writer, what it held before. *)
Theorem process_all_pdfs_files input_dir output_dir listing st q :
  fs_dirs (process_all_pdfs input_dir output_dir listing st) = {[output_dir]} ∪ fs_dirs st /\
  fs_files (process_all_pdfs input_dir output_dir listing st) !! q =
  match last_writer output_dir listing q with
  | Some f => Some (dump (result_json (extract_headings (PyStr.join input_dir f))))
  | None => fs_files st !! q
  end.
Proof.
  unfold process_all_pdfs. split.
  - by rewrite process_files_dirs.
  - by rewrite process_files_lookup, makedirs_files.
Qed.

(** (C31) When the PDFs of the listing have distinct output paths, each
    of them has its own JSON file, holding the dump of its result. *)
Theorem process_all_pdfs_each_pdf input_dir output_dir listing st f :
  NoDup (map (output_path output_dir) (filter (fun g => PyStr.endswith ".pdf" g = true) listing)) ->
  f ∈ listing -> PyStr.endswith ".pdf" f = true ->
  fs_files (process_all_pdfs input_dir output_dir listing st) !! output_path output_dir f =
  Some (dump (result_json (extract_headings (PyStr.join input_dir f)))).
Proof.
  intros Hnd Hf Hpdf. unfold process_all_pdfs.
  by rewrite process_files_lookup, last_writer_unique.
Qed.

(** (C32) Entries of the listing that do not end with ".pdf" are
    skipped: the run is the run on the PDFs alone. *)
Theorem process_all_pdfs_non_pdf input_dir output_dir listing st :
  process_all_pdfs input_dir output_dir listing st =
  process_all_pdfs input_dir output_dir
    (filter (fun g => PyStr.endswith ".pdf" g = true) listing) st.
Proof. unfold process_all_pdfs. apply process_files_filter. Qed.
End batch_theorems.

(** (C12) Type of the output: the text written for any result reads
    back as a JSON document of the spec's schema (keys, their order and
    the types of their values). *)
Theorem dump_result_schema (r : outline_result) :
  exists j, JsonParse.parse (dump (result_json r)) = Some j /\ result_schema j = true.
Proof.
  exists (result_json r). split; [apply JsonParse.parse_dump_value|]. simpl.
  apply forallb_forall. intros x (e & <- & _)%in_map_iff. reflexivity.
Qed.

(** (C33) Output names collide: for every output directory and every
    stem [u] without a dot, the two distinct inputs [u.json.pdf] and
    [u.pdf.pdf] have the same output path ([str.replace] rewrites every
    ".pdf"), so whichever is listed first has its result overwritten. *)
Theorem output_path_collision (output_dir u : string) :
  PyStr.contains "." u = false ->
  (u ++ ".json.pdf")%string <> (u ++ ".pdf.pdf")%string /\
  output_path output_dir (u ++ ".json.pdf") = output_path output_dir (u ++ ".pdf.pdf").
Proof.
  intros Hu. split.
  - intros Heq. apply string_app_inv_l in Heq. discriminate.
  - unfold output_path, output_name. by rewrite !PyStr.replace_pdf_stem.
Qed.

Lemma output_path_collision_witness :
  PyStr.contains "." "a" = false /\
  ("a" ++ ".json.pdf")%string <> ("a" ++ ".pdf.pdf")%string /\
  output_path "/app/output" ("a" ++ ".json.pdf") = output_path "/app/output" ("a" ++ ".pdf.pdf").
Proof. split; [reflexivity|]. by apply output_path_collision. Defined.

(** The collision in a run: [a.json.pdf] and [a.pdf.pdf] are both
    written to [/app/output/a.json.json]; the directory holds one file,
    the result of [a.pdf.pdf] (title "a", no entries). *)
Example process_all_pdfs_collision :
  fs_files (process_all_pdfs (RD:=collision_reader) (LD:=failing_detector)
              "/app/input" "/app/output" ["a.json.pdf"; "a.pdf.pdf"; "notes.txt"] empty_fs) =
  {[ "/app/output/a.json.json" := dump (result_json (mk_result "a" [])) ]}.
Proof. vm_compute. reflexivity. Qed.

(** The error result as CPython writes it with [indent=2]: one member
    per line, an empty list as "[]". *)
Example dump_error_result :
  dump (result_json error_result) =
  ("{" ++ String "010"%char ("  " ++ quoted "title" ++ ": " ++ quoted "Error" ++ ",") ++
   String "010"%char ("  " ++ quoted "outline" ++ ": []") ++ String "010"%char "}")%string.
Proof. vm_compute. reflexivity. Qed.

Lemma process_all_pdfs_each_pdf_witness :
  NoDup (map (output_path "/app/output")
           (filter (fun g => PyStr.endswith ".pdf" g = true) ["report.pdf"; "notes.txt"])) /\
  "report.pdf" ∈ ["report.pdf"; "notes.txt"] /\ PyStr.endswith ".pdf" "report.pdf" = true /\
  fs_files (process_all_pdfs (RD:=sample_reader) (LD:=failing_detector)
              "/app/input" "/app/output" ["report.pdf"; "notes.txt"] empty_fs)
    !! output_path "/app/output" "report.pdf" =
  Some (dump (result_json (extract_headings (RD:=sample_reader) (LD:=failing_detector)
                             (PyStr.join "/app/input" "report.pdf")))).
Proof.
  assert (NoDup (map (output_path "/app/output")
           (filter (fun g => PyStr.endswith ".pdf" g = true) ["report.pdf"; "notes.txt"]))) as Hnd
    by (vm_compute; repeat constructor; set_solver).
  assert ("report.pdf" ∈ ["report.pdf"; "notes.txt"]) as Hin by (left).
  split; [exact Hnd|]. split; [exact Hin|]. split; [reflexivity|].
  apply (process_all_pdfs_each_pdf (RD:=sample_reader) (LD:=failing_detector)); [exact Hnd|exact Hin|reflexivity].
Defined.

End Batch.
