(* ===== verification/Run.v ===== *)
(** * The process: logging, exceptions and the main block
      (src/main.py 8, 72-73, 79-92)

    [Batch.v] gives the files [process_all_pdfs] writes when nothing goes
    wrong.  This file runs the same code in a state and exception monad
    [M] over a [world]: the file store of [Batch], what [os.listdir]
    returns for each directory (its order is the operating system's),
    and the lines written by the logging handler configured at main.py 8
    ([format='[%(levelname)s] %(message)s']).  An exception that escapes
    keeps the effects done before it, as in Python.

    The calls that can raise and that the code does not catch are
    [os.makedirs] (a file of that name exists), [os.listdir] (no such
    directory, or not a directory) and [open(output_path, "w")] (the path
    is a directory).  [extract_headings] catches its own failures and
    logs them ([logging.error], main.py 72-73); the text of the caught
    exception, [str(e)], is a parameter [failure_text] of the section.

    Log lines are byte strings: the UTF-8 encoding of what the handler
    writes.  The arrow of the [Processed] line (main.py 88) is written in
    the source as the three characters U+00E2 U+2020 U+2019, whose
    encoding is [arrow] below. *)

From stdpp Require Import base list strings gmap.
From Stdlib Require Import ZArith Ascii String.
From S2P Require Import Prelude PyStr Fragments Ranker Assembler Extract Json Batch.

Module Run.
Import Fragments Assembler Extract Json Batch.

(** ** Logging (main.py 8) *)

Inductive log_level := INFO | ERROR.

Definition levelname (l : log_level) : string :=
  match l with INFO => "INFO" | ERROR => "ERROR" end.

(** [format='[%(levelname)s] %(message)s'] *)
Definition format_record (l : log_level) (msg : string) : string :=
  "[" ++ levelname l ++ "] " ++ msg.

(** The bytes of the arrow of main.py 88. *)
Definition arrow : string :=
  String (ascii_of_nat 195) (String (ascii_of_nat 162)
    (String (ascii_of_nat 226) (String (ascii_of_nat 128) (String (ascii_of_nat 160)
      (String (ascii_of_nat 226) (String (ascii_of_nat 128) (String (ascii_of_nat 153) ""))))))).

(** ** The world and the monad *)

(** The exceptions that can escape [process_all_pdfs]. *)
Inductive exn :=
| FileExistsError (path : string)
| FileNotFoundError (path : string)
| NotADirectoryError (path : string)
| IsADirectoryError (path : string).

Record world := mk_world {
  w_fs : fs_state;
  w_listing : gmap string (list string);
  w_log : list string
}.

Definition M (A : Type) : Type := world -> (exn + A) * world.

Definition ret {A} (a : A) : M A := fun w => (inr a, w).

Definition bind {A B} (m : M A) (k : A -> M B) : M B := fun w =>
  match m w with
  | (inr a, w') => k a w'
  | (inl e, w') => (inl e, w')
  end.

Declare Scope run_scope.
Delimit Scope run_scope with run.
Notation "x <- m ;; k" := (bind m (fun x => k))
  (at level 100, m at next level, right associativity) : run_scope.
Notation "m ;; k" := (bind m (fun _ => k))
  (at level 100, right associativity) : run_scope.
Local Open Scope run_scope.

Definition set_fs (fs : fs_state) (w : world) : world := mk_world fs (w_listing w) (w_log w).

(** [logging.info(msg)] and [logging.error(msg)]. *)
Definition log (l : log_level) (msg : string) : M unit := fun w =>
  (inr tt, mk_world (w_fs w) (w_listing w) (w_log w ++ [format_record l msg])).

(** [os.makedirs(d, exist_ok=True)]: raises when a file has that name. *)
Definition makedirs (d : string) : M unit := fun w =>
  if decide (d ∈ dom (fs_files (w_fs w))) then (inl (FileExistsError d), w)
  else (inr tt, set_fs (Batch.makedirs d (w_fs w)) w).

(** [os.listdir(d)]. *)
Definition listdir (d : string) : M (list string) := fun w =>
  if decide (d ∈ fs_dirs (w_fs w)) then (inr (default [] (w_listing w !! d)), w)
  else if decide (d ∈ dom (fs_files (w_fs w))) then (inl (NotADirectoryError d), w)
  else (inl (FileNotFoundError d), w).

(** [with open(p, "w") as f: f.write(contents)]. *)
Definition write_file (p contents : string) : M unit := fun w =>
  if decide (p ∈ fs_dirs (w_fs w)) then (inl (IsADirectoryError p), w)
  else (inr tt, set_fs (mk_fs (fs_dirs (w_fs w)) (<[p := contents]> (fs_files (w_fs w)))) w).

Fixpoint for_each (l : list string) (body : string -> M unit) : M unit :=
  match l with
  | [] => ret tt
  | x :: xs => body x;; for_each xs body
  end.

(** ** The program *)

Section run.
Context {K : Type} `{Countable K} `{!FontSizeOrder K} {RD : PdfReader K} {LD : LangDetector}.
Variable failure_text : string -> string.

Definition failure_message (pdf_path : string) : string :=
  "Failed to process " ++ pdf_path ++ ": " ++ failure_text pdf_path.

(** [extract_headings(pdf_path)] with the [logging.error] of its
    [except] branch (main.py 14-77). *)
Definition extract_headings_logged (pdf_path : string) : M outline_result :=
  match fitz_open pdf_path with
  | None => log ERROR (failure_message pdf_path);; ret error_result
  | Some doc =>
      match text_blocks doc with
      | None => log ERROR (failure_message pdf_path);; ret error_result
      | Some blocks => ret (outline_of_blocks blocks pdf_path)
      end
  end.

Definition processed_message (filename output_path : string) : string :=
  "Processed " ++ filename ++ " " ++ arrow ++ " " ++ PyStr.basename output_path.

(** The body of the loop of [process_all_pdfs] (main.py 82-88). *)
Definition process_file (input_dir output_dir filename : string) : M unit :=
  if PyStr.endswith ".pdf" filename then
    let pdf_path := PyStr.join input_dir filename in
    result <- extract_headings_logged pdf_path;;
    let out := output_path output_dir filename in
    write_file out (dump (result_json result));;
    log INFO (processed_message filename out)
  else ret tt.

(** [process_all_pdfs(input_dir, output_dir)] (main.py 79-88). *)
Definition process_all_pdfs (input_dir output_dir : string) : M unit :=
  makedirs output_dir;;
  listing <- listdir input_dir;;
  for_each listing (process_file input_dir output_dir).

(** The [__main__] block (main.py 90-92); [now] is the text of
    [datetime.now().isoformat()]. *)
Definition main (now : string) : M unit :=
  log INFO ("Process started at " ++ now);;
  process_all_pdfs "/app/input" "/app/output".
End run.

(** ** Reference: what a run writes and logs *)

Definition listing_of (w : world) (d : string) : list string := default [] (w_listing w !! d).

Section reference.
Context {K : Type} `{Countable K} `{!FontSizeOrder K} {RD : PdfReader K} {LD : LangDetector}.
Variable failure_text : string -> string.

(** Opening the file or reading one of its pages fails. *)
Definition read_fails (pdf_path : string) : bool :=
  match fitz_open pdf_path with
  | None => true
  | Some doc => bool_decide (text_blocks doc = None)
  end.

Definition extract_log (pdf_path : string) : list string :=
  if read_fails pdf_path then [format_record ERROR (failure_message failure_text pdf_path)] else [].

(** The lines logged for one entry of the listing. *)
Definition file_log (input_dir output_dir filename : string) : list string :=
  if PyStr.endswith ".pdf" filename then
    extract_log (PyStr.join input_dir filename) ++
    [format_record INFO (processed_message filename (output_path output_dir filename))]
  else [].

(** The run completes: no file has the output directory's name, the
    input directory exists once the output directory is made, and no
    listed PDF's output path is a directory. *)
Definition run_can_complete (input_dir output_dir : string) (w : world) : Prop :=
  (output_dir ∉ dom (fs_files (w_fs w))) /\
  (input_dir ∈ {[output_dir]} ∪ fs_dirs (w_fs w)) /\
  Forall (fun f => PyStr.endswith ".pdf" f = true ->
                   output_path output_dir f ∉ {[output_dir]} ∪ fs_dirs (w_fs w))
    (listing_of w input_dir).
End reference.

(** ** Lemmas *)

Section run_lemmas.
Context {K : Type} `{Countable K} `{!FontSizeOrder K} {RD : PdfReader K} {LD : LangDetector}.
Variable failure_text : string -> string.

Lemma world_eta w : mk_world (w_fs w) (w_listing w) (w_log w) = w.
Proof. by destruct w. Qed.

(** [extract_headings] with its logging returns what [Extract] computes
    and logs one error line exactly when reading the file fails. *)
Lemma extract_headings_logged_run p w :
  extract_headings_logged failure_text p w =
  (inr (extract_headings p), mk_world (w_fs w) (w_listing w) (w_log w ++ extract_log failure_text p)).
Proof.
  unfold extract_headings_logged, extract_headings, extract_log, read_fails.
  destruct (fitz_open p) as [doc|]; [destruct (text_blocks doc)|]; unfold bind, ret, log; simpl;
    by rewrite ?app_nil_r, ?world_eta.
Qed.

Lemma process_file_ok input_dir output_dir f w :
  (PyStr.endswith ".pdf" f = true -> output_path output_dir f ∉ fs_dirs (w_fs w)) ->
  process_file failure_text input_dir output_dir f w =
  (inr tt, mk_world (Batch.process_file input_dir output_dir (w_fs w) f) (w_listing w)
             (w_log w ++ file_log failure_text input_dir output_dir f)).
Proof.
  unfold process_file, file_log, Batch.process_file.
  destruct (PyStr.endswith ".pdf" f); intros Hout; [|by rewrite app_nil_r, world_eta].
  unfold bind. rewrite extract_headings_logged_run. simpl.
  unfold write_file. simpl. rewrite decide_False by auto. simpl. by rewrite app_assoc.
Qed.

Lemma process_file_raise input_dir output_dir f w :
  PyStr.endswith ".pdf" f = true -> output_path output_dir f ∈ fs_dirs (w_fs w) ->
  process_file failure_text input_dir output_dir f w =
  (inl (IsADirectoryError (output_path output_dir f)),
   mk_world (w_fs w) (w_listing w) (w_log w ++ extract_log failure_text (PyStr.join input_dir f))).
Proof.
  intros Hpdf Hdir. unfold process_file. rewrite Hpdf.
  unfold bind. rewrite extract_headings_logged_run. simpl.
  unfold write_file. simpl. by rewrite decide_True.
Qed.

Lemma batch_process_file_dirs input_dir output_dir st f :
  fs_dirs (Batch.process_file input_dir output_dir st f) = fs_dirs st.
Proof. apply (process_files_dirs input_dir output_dir [f]). Qed.

(** The loop completes when no listed PDF's output path is a directory. *)
Lemma for_each_ok input_dir output_dir l w :
  (forall f, f ∈ l -> PyStr.endswith ".pdf" f = true -> output_path output_dir f ∉ fs_dirs (w_fs w)) ->
  for_each l (process_file failure_text input_dir output_dir) w =
  (inr tt, mk_world (foldl (Batch.process_file input_dir output_dir) (w_fs w) l) (w_listing w)
             (w_log w ++ List.concat (map (file_log failure_text input_dir output_dir) l))).
Proof.
  revert w. induction l as [|f l IH]; intros w Hl; simpl.
  - by rewrite app_nil_r, world_eta.
  - unfold bind. rewrite process_file_ok by (apply Hl; left).
    rewrite IH; simpl.
    + by rewrite app_assoc.
    + intros g Hg. rewrite batch_process_file_dirs. apply Hl. by right.
Qed.

(** The loop stops at the first listed PDF whose output path is a
    directory, after the files and lines of the entries before it. *)
Lemma for_each_raise input_dir output_dir pre f post w :
  (forall g, g ∈ pre -> PyStr.endswith ".pdf" g = true -> output_path output_dir g ∉ fs_dirs (w_fs w)) ->
  PyStr.endswith ".pdf" f = true -> output_path output_dir f ∈ fs_dirs (w_fs w) ->
  for_each (pre ++ f :: post) (process_file failure_text input_dir output_dir) w =
  (inl (IsADirectoryError (output_path output_dir f)),
   mk_world (foldl (Batch.process_file input_dir output_dir) (w_fs w) pre) (w_listing w)
     (w_log w ++ List.concat (map (file_log failure_text input_dir output_dir) pre) ++
      extract_log failure_text (PyStr.join input_dir f))).
Proof.
  revert w. induction pre as [|g pre IH]; intros w Hpre Hpdf Hdir; simpl.
  - unfold bind. by rewrite process_file_raise.
  - unfold bind. rewrite process_file_ok by (apply Hpre; left).
    rewrite IH; simpl; rewrite ?batch_process_file_dirs; try done.
    + by rewrite !app_assoc.
    + intros h Hh. apply Hpre. by right.
Qed.

(** Entries of the listing that do not write [q] leave it as it was. *)
Lemma batch_untouched input_dir output_dir l st q :
  (forall f, f ∈ l -> PyStr.endswith ".pdf" f = true -> output_path output_dir f <> q) ->
  fs_files (foldl (Batch.process_file input_dir output_dir) st l) !! q = fs_files st !! q.
Proof.
  intros Hl. rewrite process_files_lookup. unfold last_writer.
  rewrite filter_nil_forall; [done|]. intros f Hf [Hpdf Hq]. by apply (Hl f).
Qed.

Lemma last_writer_some output_dir l f :
  f ∈ l -> PyStr.endswith ".pdf" f = true -> is_Some (last_writer output_dir l (output_path output_dir f)).
Proof.
  intros Hf Hpdf. unfold last_writer. destruct (last _) eqn:Hlast; [done|].
  apply last_None in Hlast.
  assert (f ∈ filter (fun g => PyStr.endswith ".pdf" g = true /\ output_path output_dir g =
                              output_path output_dir f) l) as Hin
    by (apply list_elem_of_filter; auto).
  rewrite Hlast in Hin. set_solver.
Qed.

Lemma process_all_pdfs_unfold input_dir output_dir w :
  process_all_pdfs failure_text input_dir output_dir w =
  if decide (output_dir ∈ dom (fs_files (w_fs w))) then (inl (FileExistsError output_dir), w)
  else if decide (input_dir ∈ {[output_dir]} ∪ fs_dirs (w_fs w))
  then for_each (listing_of w input_dir) (process_file failure_text input_dir output_dir)
         (set_fs (Batch.makedirs output_dir (w_fs w)) w)
  else if decide (input_dir ∈ dom (fs_files (w_fs w)))
  then (inl (NotADirectoryError input_dir), set_fs (Batch.makedirs output_dir (w_fs w)) w)
  else (inl (FileNotFoundError input_dir), set_fs (Batch.makedirs output_dir (w_fs w)) w).
Proof.
  unfold process_all_pdfs, bind, makedirs, listdir.
  case_decide; [done|]. cbn [w_fs set_fs fs_dirs fs_files Batch.makedirs].
  case_decide; [done|]. by case_decide.
Qed.

Lemma process_all_pdfs_complete input_dir output_dir w :
  run_can_complete input_dir output_dir w ->
  process_all_pdfs failure_text input_dir output_dir w =
  (inr tt, mk_world (Batch.process_all_pdfs input_dir output_dir (listing_of w input_dir) (w_fs w))
             (w_listing w)
             (w_log w ++ List.concat (map (file_log failure_text input_dir output_dir)
                                          (listing_of w input_dir)))).
Proof.
  intros (Hout & Hin & Hl). rewrite process_all_pdfs_unfold, decide_False, decide_True by done.
  rewrite for_each_ok; [done|]. rewrite Forall_forall in Hl. exact Hl.
Qed.

(** When the run does not complete, the first listed PDF whose output
    path is a directory stops it. *)
Lemma process_all_pdfs_stuck input_dir output_dir w :
  output_dir ∉ dom (fs_files (w_fs w)) -> input_dir ∈ {[output_dir]} ∪ fs_dirs (w_fs w) ->
  (exists f, f ∈ listing_of w input_dir /\
     (PyStr.endswith ".pdf" f = true /\ output_path output_dir f ∈ {[output_dir]} ∪ fs_dirs (w_fs w))) ->
  exists pre f post, listing_of w input_dir = pre ++ f :: post /\
    process_all_pdfs failure_text input_dir output_dir w =
    (inl (IsADirectoryError (output_path output_dir f)),
     mk_world (foldl (Batch.process_file input_dir output_dir)
                 (Batch.makedirs output_dir (w_fs w)) pre) (w_listing w)
       (w_log w ++ List.concat (map (file_log failure_text input_dir output_dir) pre) ++
        extract_log failure_text (PyStr.join input_dir f))).
Proof.
  intros Hout Hin Hbad.
  destruct (list_first_split _ _ Hbad) as (pre & f & post & Hsplit & [Hpdf Hdir] & Hpre).
  exists pre, f, post. split; [done|].
  rewrite process_all_pdfs_unfold, decide_False, decide_True, Hsplit by done.
  rewrite for_each_raise; [done| |done|done]. intros g Hg Hgpdf Hgdir. by apply (Hpre g Hg).
Qed.

End run_lemmas.

(** ** Theorems *)

Section run_theorems.
Context {K : Type} `{Countable K} `{!FontSizeOrder K} {RD : PdfReader K} {LD : LangDetector}.
Variable failure_text : string -> string.

(** (C37) Refinement: when the run can complete, it completes, leaves
    the file store [Batch.process_all_pdfs] computes, and appends for
    each listed PDF, in the listing's order, the error line of a failed
    read and then its [Processed] line. *)
Theorem process_all_pdfs_run_refines input_dir output_dir w :
  run_can_complete input_dir output_dir w ->
  process_all_pdfs failure_text input_dir output_dir w =
  (inr tt, mk_world (Batch.process_all_pdfs input_dir output_dir (listing_of w input_dir) (w_fs w))
             (w_listing w)
             (w_log w ++ List.concat (map (file_log failure_text input_dir output_dir)
                                          (listing_of w input_dir)))).
Proof. apply process_all_pdfs_complete. Qed.

(** (C38) Every document attempted is answered: in a run that can
    complete, each listed PDF has a file at its output path and a
    [Processed] line in the log, and a PDF that cannot be read also has
    its [Failed to process] line. *)
Theorem process_all_pdfs_run_each_logged input_dir output_dir w f :
  run_can_complete input_dir output_dir w ->
  f ∈ listing_of w input_dir -> PyStr.endswith ".pdf" f = true ->
  let w' := (process_all_pdfs failure_text input_dir output_dir w).2 in
  output_path output_dir f ∈ dom (fs_files (w_fs w')) /\
  format_record INFO (processed_message f (output_path output_dir f)) ∈ w_log w' /\
  (read_fails (PyStr.join input_dir f) = true ->
   format_record ERROR (failure_message failure_text (PyStr.join input_dir f)) ∈ w_log w').
Proof.
  intros Hc Hf Hpdf. rewrite process_all_pdfs_complete by done. simpl.
  assert (forall line, line ∈ file_log failure_text input_dir output_dir f ->
            line ∈ w_log w ++ List.concat (map (file_log failure_text input_dir output_dir)
                                               (listing_of w input_dir))) as Hlog
    by (intros line Hline; apply elem_of_app; right; by eapply elem_of_concat_map).
  unfold file_log, extract_log in Hlog. rewrite Hpdf in Hlog. split; [|split].
  - unfold Batch.process_all_pdfs. rewrite elem_of_dom, process_files_lookup.
    by destruct (last_writer_some output_dir _ f Hf Hpdf) as [g ->].
  - apply Hlog. set_solver.
  - intros Hfail. rewrite Hfail in Hlog. apply Hlog. set_solver.
Qed.

(** (C39) The run completes exactly when it can: otherwise an exception
    escapes [process_all_pdfs] ([FileExistsError] from [os.makedirs],
    [FileNotFoundError] or [NotADirectoryError] from [os.listdir],
    [IsADirectoryError] from [open]), and the remaining documents are not
    processed. *)
Theorem process_all_pdfs_run_completes_iff input_dir output_dir w :
  (exists w', process_all_pdfs failure_text input_dir output_dir w = (inr tt, w')) <->
  run_can_complete input_dir output_dir w.
Proof.
  split; [|intros Hc; eexists; by apply process_all_pdfs_complete].
  intros [w' Hrun].
  destruct (decide (output_dir ∈ dom (fs_files (w_fs w)))) as [Hout|Hout].
  { rewrite process_all_pdfs_unfold, decide_True in Hrun by done. discriminate. }
  destruct (decide (input_dir ∈ {[output_dir]} ∪ fs_dirs (w_fs w))) as [Hin|Hin].
  2: { rewrite process_all_pdfs_unfold, decide_False, decide_False in Hrun by done.
       by case_decide. }
  split; [done|]. split; [done|]. apply Forall_forall. intros f Hf Hpdf Hdir.
  destruct (process_all_pdfs_stuck failure_text input_dir output_dir w) as (pre & g & post & _ & Hstuck);
    [done|done|eauto|].
  congruence.
Qed.

(** (C40) Safety: whatever the outcome, a path that is not the output
    path of a listed PDF keeps its contents (input files included), and
    the log only grows. *)
Theorem process_all_pdfs_run_untouched input_dir output_dir w q :
  Forall (fun f => PyStr.endswith ".pdf" f = true -> output_path output_dir f <> q)
    (listing_of w input_dir) ->
  let w' := (process_all_pdfs failure_text input_dir output_dir w).2 in
  fs_files (w_fs w') !! q = fs_files (w_fs w) !! q /\ w_log w `prefix_of` w_log w'.
Proof.
  intros Hq. rewrite Forall_forall in Hq.
  destruct (decide (output_dir ∈ dom (fs_files (w_fs w)))) as [Hout|Hout].
  { rewrite process_all_pdfs_unfold, decide_True by done. done. }
  destruct (decide (input_dir ∈ {[output_dir]} ∪ fs_dirs (w_fs w))) as [Hin|Hin].
  2: { rewrite process_all_pdfs_unfold, decide_False, decide_False by done. by case_decide. }
  destruct (decide (Exists (fun f => PyStr.endswith ".pdf" f = true /\
                      output_path output_dir f ∈ {[output_dir]} ∪ fs_dirs (w_fs w))
                    (listing_of w input_dir))) as [Hbad%Exists_exists|Hgood].
  - destruct (process_all_pdfs_stuck failure_text input_dir output_dir w) as (pre & f & post & Hsplit & ->);
      [done|done|done|].
    simpl. split; [|by apply prefix_app_r].
    rewrite batch_untouched; [done|]. intros g Hg. apply Hq. rewrite Hsplit. set_solver.
  - rewrite process_all_pdfs_complete.
    + simpl. split; [|by apply prefix_app_r]. unfold Batch.process_all_pdfs.
      by rewrite batch_untouched.
    + split; [done|]. split; [done|]. apply Forall_forall. intros f Hf Hpdf Hdir.
      apply Hgood, Exists_exists. eauto.
Qed.
End run_theorems.

(** ** A sample run

    The input directory holds [report.pdf] (the spec's sample document,
    see [Extract.sample_reader]), [notes.txt] and [scan.pdf], which
    cannot be opened. *)
Definition sample_world : world :=
  mk_world (mk_fs {["/app/input"]} {["/app/input/report.pdf" := "%PDF-1.7"]})
    {["/app/input" := ["report.pdf"; "notes.txt"; "scan.pdf"]]} [].

Definition cannot_open (_ : string) : string := "cannot open document".

(** The log of [main] on the sample: the start line, then per PDF its
    error line if any and its [Processed] line, with the arrow's bytes. *)
Example main_sample_log :
  w_log (main (RD:=sample_reader) (LD:=failing_detector) cannot_open "2026-01-01T00:00:00"
           sample_world).2 =
  ["[INFO] Process started at 2026-01-01T00:00:00";
   "[INFO] Processed report.pdf " ++ arrow ++ " report.json";
   "[ERROR] Failed to process /app/input/scan.pdf: cannot open document";
   "[INFO] Processed scan.pdf " ++ arrow ++ " scan.json"]%string.
Proof. vm_compute. reflexivity. Qed.

(** A directory named like an output file stops the run: [scan.pdf],
    listed after it, is never processed and nothing is logged for it. *)
Definition blocked_world : world :=
  mk_world (mk_fs {["/app/input"; "/app/output/report.json"]} {["/app/input/report.pdf" := "%PDF-1.7"]})
    {["/app/input" := ["report.pdf"; "notes.txt"; "scan.pdf"]]} [].

Example process_all_pdfs_blocked :
  process_all_pdfs (RD:=sample_reader) (LD:=failing_detector) cannot_open "/app/input" "/app/output"
    blocked_world =
  (inl (IsADirectoryError "/app/output/report.json"),
   mk_world (Batch.makedirs "/app/output" (w_fs blocked_world)) (w_listing blocked_world) []).
Proof. vm_compute. reflexivity. Qed.

Lemma process_all_pdfs_run_refines_witness :
  run_can_complete "/app/input" "/app/output" sample_world /\
  process_all_pdfs (RD:=sample_reader) (LD:=failing_detector) cannot_open "/app/input" "/app/output"
    sample_world =
  (inr tt, mk_world (Batch.process_all_pdfs (RD:=sample_reader) (LD:=failing_detector)
                       "/app/input" "/app/output" (listing_of sample_world "/app/input")
                       (w_fs sample_world))
             (w_listing sample_world)
             (w_log sample_world ++
              List.concat (map (file_log (RD:=sample_reader) (LD:=failing_detector) cannot_open "/app/input" "/app/output")
                             (listing_of sample_world "/app/input")))).
Proof.
  assert (run_can_complete "/app/input" "/app/output" sample_world) as Hc
    by (unfold run_can_complete; refine (bool_decide_unpack _ _); vm_compute; reflexivity).
  split; [exact Hc|]. apply (process_all_pdfs_run_refines (RD:=sample_reader) cannot_open). exact Hc.
Defined.

Lemma process_all_pdfs_run_each_logged_witness :
  run_can_complete "/app/input" "/app/output" sample_world /\
  "scan.pdf" ∈ listing_of sample_world "/app/input" /\ PyStr.endswith ".pdf" "scan.pdf" = true /\
  let w' := (process_all_pdfs (RD:=sample_reader) (LD:=failing_detector) cannot_open
               "/app/input" "/app/output" sample_world).2 in
  output_path "/app/output" "scan.pdf" ∈ dom (fs_files (w_fs w')) /\
  format_record INFO (processed_message "scan.pdf" (output_path "/app/output" "scan.pdf")) ∈ w_log w' /\
  (read_fails (RD:=sample_reader) (LD:=failing_detector) (PyStr.join "/app/input" "scan.pdf") = true ->
   format_record ERROR (failure_message cannot_open (PyStr.join "/app/input" "scan.pdf")) ∈ w_log w').
Proof.
  assert (run_can_complete "/app/input" "/app/output" sample_world) as Hc
    by (unfold run_can_complete; refine (bool_decide_unpack _ _); vm_compute; reflexivity).
  assert ("scan.pdf" ∈ listing_of sample_world "/app/input") as Hin
    by (vm_compute; right; right; left).
  split; [exact Hc|]. split; [exact Hin|]. split; [reflexivity|].
  apply (process_all_pdfs_run_each_logged (RD:=sample_reader) cannot_open); [exact Hc|exact Hin|reflexivity].
Defined.

Lemma process_all_pdfs_run_untouched_witness :
  Forall (fun f => PyStr.endswith ".pdf" f = true -> output_path "/app/output" f <> "/app/input/report.pdf")
    (listing_of blocked_world "/app/input") /\
  let w' := (process_all_pdfs (RD:=sample_reader) (LD:=failing_detector) cannot_open
               "/app/input" "/app/output" blocked_world).2 in
  fs_files (w_fs w') !! "/app/input/report.pdf" = fs_files (w_fs blocked_world) !! "/app/input/report.pdf" /\
  w_log blocked_world `prefix_of` w_log w'.
Proof.
  assert (Forall (fun f => PyStr.endswith ".pdf" f = true ->
                           output_path "/app/output" f <> "/app/input/report.pdf")
            (listing_of blocked_world "/app/input")) as Hq
    by (refine (bool_decide_unpack _ _); vm_compute; reflexivity).
  split; [exact Hq|]. apply (process_all_pdfs_run_untouched (RD:=sample_reader) cannot_open). exact Hq.
Defined.

End Run.
